(** * Macro automation: the macro engine of LandedGryphon/macros

    A shallow embedding of the engine code of the three versions of the
    macro tool:

    - [PyQt6_Version/Macro V2.0/MacroV2.0_PyQt6.py]   (module [PyQt])
    - [Tkinter_Versions/MacroV2.0/MacroV2.0.py]       (module [TkV2])
    - [Tkinter_Versions/MacroV1.0/MacroV1.0.py]       (module [V1])

    Python values, exceptions and the [str] methods the code calls come
    first, then the key normaliser, the effect monad in which the
    callbacks and the execution loop run, and finally the statements
    about them. *)

From Stdlib Require Import ZArith Lia Bool Ascii String List.
From stdpp Require Import base option list strings gmap pretty.
Import ListNotations.

Local Open Scope string_scope.
Local Open Scope list_scope.

(* ===================================================================== *)
(** ** Python [str] methods used by the engine                           *)
(* ===================================================================== *)

(** Strings are byte strings; the case conversions are those of the ASCII
    letters, as are the inputs the engine handles (key names). *)
Module PyStr.

Definition is_upper (c : ascii) : bool :=
  let n := nat_of_ascii c in Nat.leb 65 n && Nat.leb n 90.

Definition is_lower (c : ascii) : bool :=
  let n := nat_of_ascii c in Nat.leb 97 n && Nat.leb n 122.

Definition lower_ascii (c : ascii) : ascii :=
  if is_upper c then ascii_of_nat (nat_of_ascii c + 32) else c.

Definition upper_ascii (c : ascii) : ascii :=
  if is_lower c then ascii_of_nat (nat_of_ascii c - 32) else c.

(** The characters [str.strip()] removes: TAB, LF, VT, FF, CR, the
    separators 0x1c-0x1f and the space. *)
Definition is_space (c : ascii) : bool :=
  let n := nat_of_ascii c in
  (Nat.leb 9 n && Nat.leb n 13) || (Nat.leb 28 n && Nat.leb n 32).

Fixpoint smap (f : ascii -> ascii) (s : string) : string :=
  match s with
  | EmptyString => EmptyString
  | String c s' => String (f c) (smap f s')
  end.

(** [s.lower()] and [s.upper()] *)
Definition lower : string -> string := smap lower_ascii.
Definition upper : string -> string := smap upper_ascii.

(** [s.lstrip()] *)
Fixpoint lstrip (s : string) : string :=
  match s with
  | EmptyString => EmptyString
  | String c s' => if is_space c then lstrip s' else s
  end.

(** [s.rstrip()] *)
Fixpoint rstrip (s : string) : string :=
  match s with
  | EmptyString => EmptyString
  | String c s' =>
      match rstrip s' with
      | EmptyString => if is_space c then EmptyString else String c EmptyString
      | r => String c r
      end
  end.

(** [s.strip()] *)
Definition strip (s : string) : string := rstrip (lstrip s).

Definition underscore : ascii := "_"%char.
Definition quote : ascii := "'"%char.

(** [s.startswith("_")] *)
Definition startswith_underscore (s : string) : bool :=
  match s with
  | String c _ => Ascii.eqb c underscore
  | EmptyString => false
  end.

(** [s[1:]] *)
Definition tail (s : string) : string :=
  match s with
  | String _ s' => s'
  | EmptyString => EmptyString
  end.

(** [s.lstrip("_")]: every leading underscore goes. *)
Fixpoint lstrip_underscore (s : string) : string :=
  match s with
  | EmptyString => EmptyString
  | String c s' => if Ascii.eqb c underscore then lstrip_underscore s' else s
  end.

(** [s.replace("'", "")] *)
Fixpoint remove_quotes (s : string) : string :=
  match s with
  | EmptyString => EmptyString
  | String c s' =>
      if Ascii.eqb c quote then remove_quotes s' else String c (remove_quotes s')
  end.

(** A string that [lower] leaves alone. *)
Definition lowercase (s : string) : Prop := lower s = s.

(** The line break of the label texts. *)
Definition newline : string := String (ascii_of_nat 10) EmptyString.

End PyStr.

(* ===================================================================== *)
(** ** Python values and exceptions                                      *)
(* ===================================================================== *)

(** What [obj.name] gives: no such attribute, a [str], or a value of
    another type (on which [.lower()] and [.startswith] are missing). *)
Inductive attr : Type :=
  | NoAttr
  | StrAttr (s : string)
  | OtherAttr.

(** The values that reach the key functions: a [str], or any other object,
    described by its [name] attribute and by what [str(obj)] returns. *)
Inductive pyval : Type :=
  | PStr (s : string)
  | PObj (name : attr) (repr : string).

Inductive exn : Type :=
  | AttributeError (msg : string)
  | ValueError (msg : string)
  | OtherError (msg : string).

(** [str(e)] *)
Definition exn_str (e : exn) : string :=
  match e with
  | AttributeError m | ValueError m | OtherError m => m
  end.

Definition is_AttributeError (e : exn) : bool :=
  match e with AttributeError _ => true | _ => false end.

(** The result of an expression that may raise. *)
Inductive res (A : Type) : Type :=
  | Ok (a : A)
  | Raise (e : exn).
Arguments Ok {A} a.
Arguments Raise {A} e.

#[global] Instance attr_eq_dec : EqDecision attr.
Proof. solve_decision. Defined.
#[global] Instance pyval_eq_dec : EqDecision pyval.
Proof. solve_decision. Defined.
#[global] Instance exn_eq_dec : EqDecision exn.
Proof. solve_decision. Defined.

Module Py.

Definition rbind {A B} (r : res A) (k : A -> res B) : res B :=
  match r with
  | Ok a => k a
  | Raise e => Raise e
  end.

(** [try: r  except <filter>: h e]; an exception the filter rejects
    propagates. *)
Definition try_except {A} (r : res A) (filter : exn -> bool) (h : exn -> res A) : res A :=
  match r with
  | Ok a => Ok a
  | Raise e => if filter e then h e else Raise e
  end.

(** [except Exception] and the bare [except] catch everything raised
    here. *)
Definition any_exn (_ : exn) : bool := true.

(** [str(obj)] *)
Definition str (v : pyval) : string :=
  match v with
  | PStr s => s
  | PObj _ r => r
  end.

(** [isinstance(obj, str)] *)
Definition is_str (v : pyval) : bool :=
  match v with PStr _ => true | PObj _ _ => false end.

(** [obj.name] *)
Definition get_name (v : pyval) : res attr :=
  match v with
  | PStr _ => Raise (AttributeError "'str' object has no attribute 'name'")
  | PObj NoAttr _ => Raise (AttributeError "object has no attribute 'name'")
  | PObj a _ => Ok a
  end.

(** [x.lower()] on the value of an attribute *)
Definition attr_lower (a : attr) : res string :=
  match a with
  | StrAttr s => Ok (PyStr.lower s)
  | _ => Raise (AttributeError "object has no attribute 'lower'")
  end.

(** [x.startswith("_")] on the value of an attribute, with [x] itself *)
Definition attr_startswith_underscore (a : attr) : res (string * bool) :=
  match a with
  | StrAttr s => Ok (s, PyStr.startswith_underscore s)
  | _ => Raise (AttributeError "object has no attribute 'startswith'")
  end.

(** [obj.lower()] on a value: only [str] has the method. *)
Definition val_lower (v : pyval) : res string :=
  match v with
  | PStr s => Ok (PyStr.lower s)
  | PObj _ _ => Raise (AttributeError "object has no attribute 'lower'")
  end.

(** [bool(obj)]: the empty string is false, key objects are true. *)
Definition truthy (v : pyval) : bool :=
  match v with
  | PStr EmptyString => false
  | _ => true
  end.

End Py.

Notation "x <-r r ;; k" := (Py.rbind r (fun x => k))
  (at level 100, r at next level, right associativity, only parsing).

(* ===================================================================== *)
(** ** The input capability's key objects (pynput)                       *)
(* ===================================================================== *)

(** The members of [pynput.keyboard.Key].  A member's [name] is its
    identifier and [str] prints it as [Key.<name>].  Attributes of the enum
    class that are not members are outside the table. *)
Definition Key_names : list string :=
  [ "alt"; "alt_l"; "alt_r"; "alt_gr"; "backspace"; "caps_lock";
    "cmd"; "cmd_l"; "cmd_r"; "ctrl"; "ctrl_l"; "ctrl_r";
    "delete"; "down"; "end"; "enter"; "esc";
    "f1"; "f2"; "f3"; "f4"; "f5"; "f6"; "f7"; "f8"; "f9"; "f10";
    "f11"; "f12"; "f13"; "f14"; "f15"; "f16"; "f17"; "f18"; "f19"; "f20";
    "home"; "left"; "page_down"; "page_up"; "right";
    "shift"; "shift_l"; "shift_r"; "space"; "tab"; "up";
    "media_play_pause"; "media_volume_mute"; "media_volume_down";
    "media_volume_up"; "media_previous"; "media_next";
    "insert"; "menu"; "num_lock"; "pause"; "print_screen"; "scroll_lock" ].

(** [Key.<n>] *)
Definition Key (n : string) : pyval := PObj (StrAttr n) ("Key." +:+ n).

(** A [KeyCode] for a printable character: it has no [name], and [str]
    gives the character between quotes. *)
Definition KeyCode (c : string) : pyval := PObj NoAttr ("'" +:+ c +:+ "'").

(** [None], which the listener passes for a key it does not know. *)
Definition PNone : pyval := PObj NoAttr "None".

(** [getattr(Key, n)] over the members of the enumeration: a name of the
    table answers its member, any other name raises [AttributeError].
    The attributes the enum class has besides its members ([mro],
    [__name__], [__members__] and the like, which [getattr] answers with a
    method, a string or a mapping) are outside this lookup; the
    statements below that go through it speak of member names and of
    names that are no attribute of the class. *)
Definition getattr_Key (n : string) : res pyval :=
  if bool_decide (n ∈ Key_names) then Ok (Key n)
  else Raise (AttributeError n).

(* ===================================================================== *)
(** ** Key normaliser                                                    *)
(* ===================================================================== *)

(** Identical in [MacroV2.0_PyQt6.py] (lines 320-367) and in
    [MacroV2.0.py] (lines 310-361). *)
Module KeyNormalizer.

(** [_string_to_key] *)
Definition _string_to_key (key_str : pyval) : pyval :=
  let body : res pyval :=
    lowered <-r Py.val_lower key_str ;;
    let key_str_clean := PyStr.strip lowered in
    Py.try_except (getattr_Key key_str_clean) is_AttributeError (fun e1 =>
      Py.try_except (getattr_Key ("_" +:+ key_str_clean)) is_AttributeError (fun e2 =>
        if Nat.eqb (String.length key_str_clean) 1
        then Ok (PStr key_str_clean)
        else Raise e2))
  in
  match Py.try_except body Py.any_exn (fun _ => Ok (Key "f1")) with
  | Ok k => k
  | Raise _ => Key "f1"
  end.

(** [_key_to_string] *)
Definition _key_to_string (key : pyval) : string :=
  let body : res string :=
    a <-r Py.get_name key ;;
    key_name <-r Py.attr_lower a ;;
    Ok (if PyStr.startswith_underscore key_name
        then PyStr.tail key_name else key_name)
  in
  match Py.try_except body Py.any_exn (fun _ => Ok "f1") with
  | Ok s => s
  | Raise _ => "f1"
  end.

(** [_normalize_key], with its two nested [try] blocks. *)
Definition _normalize_key (key : pyval) : res string :=
  Py.try_except
    (if Py.is_str key then Py.val_lower key
     else
       Py.try_except
         (a <-r Py.get_name key ;;
          low <-r Py.attr_lower a ;;
          Ok (PyStr.lstrip_underscore low))
         Py.any_exn
         (fun _ => Ok (PyStr.lower (Py.str key))))
    Py.any_exn
    (fun _ => Ok (PyStr.lower (Py.str key))).

(** [_key_name], the same in the three files (PyQt lines 736-740). *)
Definition _key_name (key : pyval) : string :=
  match Py.try_except
          (a <-r Py.get_name key ;;
           match a with
           | StrAttr s => Ok (PyStr.upper s)
           | _ => Raise (AttributeError "object has no attribute 'upper'")
           end)
          Py.any_exn
          (fun _ => Ok (PyStr.upper (Py.str key))) with
  | Ok s => s
  | Raise _ => PyStr.upper (Py.str key)
  end.

End KeyNormalizer.

(* ===================================================================== *)
(** ** Effects: the input capability, the clock, the status channel      *)
(* ===================================================================== *)

(** [Button.left] and [Button.right] *)
Inductive button : Type := Button_left | Button_right.

(** The calls on [mouse_controller] and [keyboard_controller]. *)
Inductive dev_op : Type :=
  | SetPosition (x y : option Z)      (* mouse_controller.position = (x, y) *)
  | MouseClick (b : button)           (* mouse_controller.click(b, 1) *)
  | MousePress (b : button)
  | MouseRelease (b : button)
  | KeyPress (k : pyval)
  | KeyRelease (k : pyval).

(** The values of the flat configuration file. *)
Inductive jval : Type :=
  | JNull
  | JInt (z : Z)
  | JStr (s : string).

(** Everything a callback or the execution loop does to the outside, in
    the order it happens. *)
Inductive event : Type :=
  | Dev (op : dev_op) (returned : bool)  (* a capability call; [false]: it raised *)
  | Sleep (ms : Z)                       (* time.sleep(ms / 1000) *)
  | Status (msg severity : string)       (* the status channel / status label *)
  | CoordinatesUpdated (x y : Z)         (* the coordinate label *)
  | CaptureButton (enabled : bool) (text : string)
  | MessageBox (kind title text : string) (* QMessageBox / messagebox *)
  | SaveConfig (cfg : gmap string jval)  (* json.dump(self.config, f) *)
  | ThreadStart                          (* threading.Thread(...).start() *)
  | CloseLater (ms : Z)                  (* QTimer.singleShot(ms, self.close) *)
  | KeyDisplay (slot text : string)      (* the label of a rebound hotkey *)
  | DialogAcceptLater (ms : Z).          (* QTimer.singleShot(ms, dialog.accept) *)

#[global] Instance button_eq_dec : EqDecision button.
Proof. solve_decision. Defined.
#[global] Instance jval_eq_dec : EqDecision jval.
Proof. solve_decision. Defined.
#[global] Instance dev_op_eq_dec : EqDecision dev_op.
Proof. solve_decision. Defined.
#[global] Instance event_eq_dec : EqDecision event.
Proof. solve_decision. Defined.

(** Where a thread running [_execute_macro] stands. *)
Inductive tstate : Type :=
  | Created                               (* started, nothing run yet *)
  | Looping (action button_type : string) (* at the [while] test; the two
                                             strings are the locals of the
                                             Tkinter version, unused by PyQt *)
  | Finished.

(** The attributes of the application object the engine reads and writes
    ([self.<field>]); [config] is [self.config_mgr.config] and
    [checkedId] the selected radio button of the button group. *)
Record app : Type := mkApp {
  is_running : bool;
  is_paused : bool;
  capture_mode : bool;
  saved_x : option Z;
  saved_y : option Z;
  action_type : string;
  button_type : string;
  click_delay_ms : Z;
  hold_duration_ms : Z;
  custom_key : option pyval;
  custom_key_name : string;
  key_start : pyval;
  key_pause : pyval;
  key_exit : pyval;
  config : gmap string jval;
  checkedId : Z
}.

Definition set_is_running (v : bool) (a : app) : app :=
  mkApp v (is_paused a) (capture_mode a) (saved_x a) (saved_y a) (action_type a)
    (button_type a) (click_delay_ms a) (hold_duration_ms a) (custom_key a)
    (custom_key_name a) (key_start a) (key_pause a) (key_exit a) (config a) (checkedId a).
Definition set_is_paused (v : bool) (a : app) : app :=
  mkApp (is_running a) v (capture_mode a) (saved_x a) (saved_y a) (action_type a)
    (button_type a) (click_delay_ms a) (hold_duration_ms a) (custom_key a)
    (custom_key_name a) (key_start a) (key_pause a) (key_exit a) (config a) (checkedId a).
Definition set_capture_mode (v : bool) (a : app) : app :=
  mkApp (is_running a) (is_paused a) v (saved_x a) (saved_y a) (action_type a)
    (button_type a) (click_delay_ms a) (hold_duration_ms a) (custom_key a)
    (custom_key_name a) (key_start a) (key_pause a) (key_exit a) (config a) (checkedId a).
Definition set_saved_x (v : option Z) (a : app) : app :=
  mkApp (is_running a) (is_paused a) (capture_mode a) v (saved_y a) (action_type a)
    (button_type a) (click_delay_ms a) (hold_duration_ms a) (custom_key a)
    (custom_key_name a) (key_start a) (key_pause a) (key_exit a) (config a) (checkedId a).
Definition set_saved_y (v : option Z) (a : app) : app :=
  mkApp (is_running a) (is_paused a) (capture_mode a) (saved_x a) v (action_type a)
    (button_type a) (click_delay_ms a) (hold_duration_ms a) (custom_key a)
    (custom_key_name a) (key_start a) (key_pause a) (key_exit a) (config a) (checkedId a).
Definition set_action_type (v : string) (a : app) : app :=
  mkApp (is_running a) (is_paused a) (capture_mode a) (saved_x a) (saved_y a) v
    (button_type a) (click_delay_ms a) (hold_duration_ms a) (custom_key a)
    (custom_key_name a) (key_start a) (key_pause a) (key_exit a) (config a) (checkedId a).
Definition set_button_type (v : string) (a : app) : app :=
  mkApp (is_running a) (is_paused a) (capture_mode a) (saved_x a) (saved_y a) (action_type a)
    v (click_delay_ms a) (hold_duration_ms a) (custom_key a)
    (custom_key_name a) (key_start a) (key_pause a) (key_exit a) (config a) (checkedId a).
Definition set_click_delay_ms (v : Z) (a : app) : app :=
  mkApp (is_running a) (is_paused a) (capture_mode a) (saved_x a) (saved_y a) (action_type a)
    (button_type a) v (hold_duration_ms a) (custom_key a)
    (custom_key_name a) (key_start a) (key_pause a) (key_exit a) (config a) (checkedId a).
Definition set_hold_duration_ms (v : Z) (a : app) : app :=
  mkApp (is_running a) (is_paused a) (capture_mode a) (saved_x a) (saved_y a) (action_type a)
    (button_type a) (click_delay_ms a) v (custom_key a)
    (custom_key_name a) (key_start a) (key_pause a) (key_exit a) (config a) (checkedId a).
Definition set_custom_key (v : option pyval) (a : app) : app :=
  mkApp (is_running a) (is_paused a) (capture_mode a) (saved_x a) (saved_y a) (action_type a)
    (button_type a) (click_delay_ms a) (hold_duration_ms a) v
    (custom_key_name a) (key_start a) (key_pause a) (key_exit a) (config a) (checkedId a).
Definition set_custom_key_name (v : string) (a : app) : app :=
  mkApp (is_running a) (is_paused a) (capture_mode a) (saved_x a) (saved_y a) (action_type a)
    (button_type a) (click_delay_ms a) (hold_duration_ms a) (custom_key a)
    v (key_start a) (key_pause a) (key_exit a) (config a) (checkedId a).
Definition set_key_start (v : pyval) (a : app) : app :=
  mkApp (is_running a) (is_paused a) (capture_mode a) (saved_x a) (saved_y a) (action_type a)
    (button_type a) (click_delay_ms a) (hold_duration_ms a) (custom_key a)
    (custom_key_name a) v (key_pause a) (key_exit a) (config a) (checkedId a).
Definition set_key_pause (v : pyval) (a : app) : app :=
  mkApp (is_running a) (is_paused a) (capture_mode a) (saved_x a) (saved_y a) (action_type a)
    (button_type a) (click_delay_ms a) (hold_duration_ms a) (custom_key a)
    (custom_key_name a) (key_start a) v (key_exit a) (config a) (checkedId a).
Definition set_key_exit (v : pyval) (a : app) : app :=
  mkApp (is_running a) (is_paused a) (capture_mode a) (saved_x a) (saved_y a) (action_type a)
    (button_type a) (click_delay_ms a) (hold_duration_ms a) (custom_key a)
    (custom_key_name a) (key_start a) (key_pause a) v (config a) (checkedId a).
Definition set_config (v : gmap string jval) (a : app) : app :=
  mkApp (is_running a) (is_paused a) (capture_mode a) (saved_x a) (saved_y a) (action_type a)
    (button_type a) (click_delay_ms a) (hold_duration_ms a) (custom_key a)
    (custom_key_name a) (key_start a) (key_pause a) (key_exit a) v (checkedId a).
Definition set_checkedId (v : Z) (a : app) : app :=
  mkApp (is_running a) (is_paused a) (capture_mode a) (saved_x a) (saved_y a) (action_type a)
    (button_type a) (click_delay_ms a) (hold_duration_ms a) (custom_key a)
    (custom_key_name a) (key_start a) (key_pause a) (key_exit a) (config a) v.

(** The whole machine: the shared application object, what has been done
    to the outside so far (oldest first), the outcomes the input
    capability will give to the coming calls ([Some msg]: the call raises
    an exception printing as [msg]; past the end of the list every call
    returns), and the execution-loop threads started so far. *)
Record machine : Type := mkMachine {
  self : app;
  out : list event;
  faults : list (option string);
  threads : list tstate
}.

(** Computations of the callbacks and of the loop: they may raise, and
    what they did before raising stays done. *)
Definition M (A : Type) : Type := machine -> res A * machine.

Module Eff.

Definition ret {A} (a : A) : M A := fun m => (Ok a, m).

Definition bind {A B} (c : M A) (k : A -> M B) : M B :=
  fun m => match c m with
           | (Ok a, m') => k a m'
           | (Raise e, m') => (Raise e, m')
           end.

Definition raise {A} (e : exn) : M A := fun m => (Raise e, m).

(** A pure expression that may raise. *)
Definition lift {A} (r : res A) : M A := fun m => (r, m).

(** [try: c  except <filter> as e: h e] *)
Definition try_except {A} (c : M A) (filter : exn -> bool) (h : exn -> M A) : M A :=
  fun m => match c m with
           | (Ok a, m') => (Ok a, m')
           | (Raise e, m') => if filter e then h e m' else (Raise e, m')
           end.

Definition get : M app := fun m => (Ok (self m), m).

Definition modify (f : app -> app) : M unit :=
  fun m => (Ok tt, mkMachine (f (self m)) (out m) (faults m) (threads m)).

Definition emit (e : event) : M unit :=
  fun m => (Ok tt, mkMachine (self m) (out m ++ [e]) (faults m) (threads m)).

(** A call on the input capability. *)
Definition dev (op : dev_op) : M unit :=
  fun m => match faults m with
           | Some msg :: fs =>
               (Raise (OtherError msg),
                mkMachine (self m) (out m ++ [Dev op false]) fs (threads m))
           | None :: fs =>
               (Ok tt, mkMachine (self m) (out m ++ [Dev op true]) fs (threads m))
           | [] =>
               (Ok tt, mkMachine (self m) (out m ++ [Dev op true]) [] (threads m))
           end.

(** [time.sleep(ms / 1000)]: a negative length is refused. *)
Definition sleep (ms : Z) : M unit :=
  if (ms <? 0)%Z then raise (ValueError "sleep length must be non-negative")
  else emit (Sleep ms).

(** [threading.Thread(target=self._execute_macro, daemon=True).start()] *)
Definition thread_start : M unit :=
  fun m => (Ok tt, mkMachine (self m) (out m ++ [ThreadStart]) (faults m)
                     (threads m ++ [Created])).

(** [ConfigManager.save_config]: the dump is attempted; a failure is
    printed and swallowed there. *)
Definition save_config : M unit :=
  bind get (fun a => emit (SaveConfig (config a))).

(** [ConfigManager.set] *)
Definition config_set (k : string) (v : jval) : M unit :=
  bind (modify (fun a => set_config (<[k := v]> (config a)) a)) (fun _ => save_config).

End Eff.

Notation "x <- c ;; k" := (Eff.bind c (fun x => k))
  (at level 100, c at next level, right associativity, only parsing).
Notation "c ;;; k" := (Eff.bind c (fun _ => k))
  (at level 100, right associativity, only parsing).

(** [try: c  except: pass] *)
Definition try_pass (c : M unit) : M unit :=
  Eff.try_except c Py.any_exn (fun _ => Eff.ret tt).

(** [if self.custom_key:] *)
Definition custom_key_set (a : app) : option pyval :=
  match custom_key a with
  | Some k => if Py.truthy k then Some k else None
  | None => None
  end.

(** How one pass through the body of the [while] ends. *)
Inductive loop_ctl : Type := Continue | Break.

(* ===================================================================== *)
(** ** MacroV2.0_PyQt6.py                                                *)
(* ===================================================================== *)

Module PyQt.
Import KeyNormalizer.

(** [_release_all] (lines 699-714) *)
Definition _release_all : M unit :=
  try_pass (Eff.dev (MouseRelease Button_left)) ;;;
  try_pass (Eff.dev (MouseRelease Button_right)) ;;;
  a <- Eff.get ;;
  match custom_key_set a with
  | Some k => try_pass (Eff.dev (KeyRelease k))
  | None => Eff.ret tt
  end.

(** [_perform_action] (lines 675-684); the handler only prints. *)
Definition _perform_action (b : button) (action : string) : M unit :=
  try_pass
    (if String.eqb action "click" then Eff.dev (MouseClick b)
     else
       Eff.dev (MousePress b) ;;;
       a <- Eff.get ;;
       Eff.sleep (hold_duration_ms a) ;;;
       Eff.dev (MouseRelease b)).

(** [_perform_keyboard_action] (lines 686-697) *)
Definition _perform_keyboard_action (key : pyval) (action : string) : M unit :=
  try_pass
    (if String.eqb action "click" then
       Eff.dev (KeyPress key) ;;;
       Eff.sleep 50 ;;;
       Eff.dev (KeyRelease key)
     else
       Eff.dev (KeyPress key) ;;;
       a <- Eff.get ;;
       Eff.sleep (hold_duration_ms a) ;;;
       Eff.dev (KeyRelease key)).

(** [_start_capture_mode] (lines 569-581) *)
Definition _start_capture_mode : M unit :=
  Eff.emit (MessageBox "information" "Captura de Coordenadas"
              "Clique em qualquer ponto da tela para capturar a coordenada.") ;;;
  Eff.modify (set_capture_mode true) ;;;
  Eff.emit (CaptureButton false "Aguardando clique...") ;;;
  Eff.emit (Status "Aguardando clique na tela..." "warning").

(** [_on_action_changed] (lines 583-589); [id] is
    [action_button_group.checkedId()]. *)
Definition _on_action_changed (id : Z) : M unit :=
  Eff.modify (set_action_type (if (id =? 0)%Z then "click" else "hold")) ;;;
  a <- Eff.get ;;
  Eff.config_set "action_type" (JStr (action_type a)).

(** [_on_timing_changed] (lines 591-596); [d] and [h] are the values of
    the two spin boxes. *)
Definition _on_timing_changed (d h : Z) : M unit :=
  Eff.modify (set_click_delay_ms d) ;;;
  Eff.modify (set_hold_duration_ms h) ;;;
  Eff.config_set "click_delay_ms" (JInt d) ;;;
  Eff.config_set "hold_duration_ms" (JInt h).

(** [_on_key_press] (lines 598-637) *)
Definition _on_key_press (key : pyval) : M unit :=
  Eff.try_except
    (a <- Eff.get ;;
     key_pressed <- Eff.lift (_normalize_key key) ;;
     k_start <- Eff.lift (_normalize_key (key_start a)) ;;
     k_pause <- Eff.lift (_normalize_key (key_pause a)) ;;
     k_exit <- Eff.lift (_normalize_key (key_exit a)) ;;
     if String.eqb key_pressed k_start then
       match saved_x a, saved_y a with
       | Some _, Some _ =>
           Eff.modify (set_is_running true) ;;;
           Eff.modify (set_is_paused false) ;;;
           Eff.emit (Status "Executando..." "success") ;;;
           Eff.thread_start
       | _, _ =>
           Eff.emit (MessageBox "warning" "Aviso"
                       "Por favor, capture uma coordenada primeiro!")
       end
     else if String.eqb key_pressed k_pause then
       Eff.modify (set_is_running false) ;;;
       Eff.modify (set_is_paused true) ;;;
       _release_all ;;;
       Eff.emit (Status "Pausado" "warning")
     else if String.eqb key_pressed k_exit then
       Eff.modify (set_is_running false) ;;;
       Eff.modify (set_is_paused false) ;;;
       _release_all ;;;
       Eff.save_config ;;;
       Eff.emit (CloseLater 500)
     else Eff.ret tt)
    is_AttributeError
    (fun _ => Eff.ret tt).

(** [button_map.get(checkedId, "esquerdo")] (line 643-644) *)
Definition button_map_get (id : Z) : string :=
  if (id =? 0)%Z then "esquerdo"
  else if (id =? 1)%Z then "direito"
  else if (id =? 2)%Z then "custom"
  else "esquerdo".

(** [_execute_macro], lines 642-645: what runs before the [while]. *)
Definition loop_prelude : M unit :=
  a <- Eff.get ;;
  Eff.modify (set_button_type (button_map_get (checkedId a))) ;;;
  a <- Eff.get ;;
  Eff.config_set "button_type" (JStr (button_type a)).

(** [_execute_macro], lines 648-666: the body of the [while]. *)
Definition loop_body : M loop_ctl :=
  a <- Eff.get ;;
  (if String.eqb (button_type a) "esquerdo" || String.eqb (button_type a) "direito"
   then Eff.dev (SetPosition (saved_x a) (saved_y a)) ;;; Eff.sleep 50
   else Eff.ret tt) ;;;
  ctl <- (if String.eqb (button_type a) "esquerdo" then
            _perform_action Button_left (action_type a) ;;; Eff.ret Continue
          else if String.eqb (button_type a) "direito" then
            _perform_action Button_right (action_type a) ;;; Eff.ret Continue
          else if String.eqb (button_type a) "custom" then
            match custom_key_set a with
            | Some k => _perform_keyboard_action k (action_type a) ;;; Eff.ret Continue
            | None =>
                Eff.emit (Status "Erro: Nenhuma tecla customizada selecionada" "error") ;;;
                Eff.ret Break
            end
          else Eff.ret Continue) ;;
  match ctl with
  | Break => Eff.ret Break
  | Continue =>
      (if String.eqb (action_type a) "click"
       then Eff.sleep (click_delay_ms a)
       else Eff.sleep (hold_duration_ms a + click_delay_ms a)) ;;;
      Eff.ret Continue
  end.

(** [_execute_macro], lines 668-669: what runs after the [while]. *)
Definition loop_exit : M unit :=
  _release_all ;;;
  Eff.emit (Status "Parado" "error").

(** [_execute_macro], lines 671-673: the handler of the enclosing [try]. *)
Definition loop_except (e : exn) : M unit :=
  Eff.emit (Status ("Erro: " +:+ exn_str e) "error").

(** [_execute_macro] (lines 639-673), one scheduling slice at a time: a
    new thread runs up to the first test of [self.is_running]; a thread at
    the test either leaves the loop or runs the body once and comes back
    to the test.  The other threads write the flag between the slices.
    Whatever raises inside the [try] ends the thread in the handler. *)
Definition _execute_macro (t : tstate) : M tstate :=
  match t with
  | Created =>
      Eff.try_except
        (loop_prelude ;;; Eff.ret (Looping "" ""))
        Py.any_exn
        (fun e => loop_except e ;;; Eff.ret Finished)
  | Looping _ _ =>
      Eff.try_except
        (a <- Eff.get ;;
         if is_running a then
           ctl <- loop_body ;;
           match ctl with
           | Continue => Eff.ret t
           | Break => loop_exit ;;; Eff.ret Finished
           end
         else loop_exit ;;; Eff.ret Finished)
        Py.any_exn
        (fun e => loop_except e ;;; Eff.ret Finished)
  | Finished => Eff.ret Finished
  end.

(** [_on_mouse_click] (lines 716-728) *)
Definition _on_mouse_click (x y : Z) (b : button) (pressed : bool) : M unit :=
  a <- Eff.get ;;
  if capture_mode a && pressed then
    Eff.modify (set_saved_x (Some x)) ;;;
    Eff.modify (set_saved_y (Some y)) ;;;
    Eff.modify (set_capture_mode false) ;;;
    Eff.config_set "saved_x" (JInt x) ;;;
    Eff.config_set "saved_y" (JInt y) ;;;
    Eff.emit (CoordinatesUpdated x y) ;;;
    Eff.emit (CaptureButton true "Capturar Coordenada") ;;;
    Eff.emit (Status "Coordenada capturada!" "success")
  else Eff.ret tt.

(** [closeEvent] (lines 1124-1141) *)
Definition closeEvent : M unit :=
  Eff.modify (set_is_running false) ;;;
  _release_all ;;;
  Eff.config_set "button_type" (JStr "esquerdo").

(** *** Hotkey capture: [_capture_hotkey_rebind] (lines 816-912) *)

(** A capture in progress: the slot being rebound, whether the capture
    listener still delivers key presses, whether
    [listener_obj.join(timeout=15)] has returned, and whether the modal
    dialog is still open. *)
Record capture : Type := mkCapture {
  hotkey_type : string;
  listener_alive : bool;
  join_returned : bool;
  dialog_open : bool
}.

(** What can happen to a capture: a key press, the 15 seconds of the
    [join] running out, the dialog being closed. *)
Inductive capture_input : Type :=
  | CapKey (key : pyval)
  | CapTimeout
  | CapDialogClosed.

(** Lines 850-855: the name of the pressed key. *)
Definition pressed_key_name (key : pyval) : res string :=
  Py.try_except
    (a <-r Py.get_name key ;;
     p <-r Py.attr_startswith_underscore a ;;
     Ok (if snd p then PyStr.tail (fst p) else fst p))
    is_AttributeError
    (fun _ => Ok (PyStr.remove_quotes (Py.str key))).

(** [on_press] (lines 847-884).  It returns [False] on both paths, which
    stops the capture listener. *)
Definition on_press (hotkey_type : string) (key : pyval) : M bool :=
  Eff.try_except
    (key_name <- Eff.lift (pressed_key_name key) ;;
     let key_name_clean := PyStr.lower key_name in
     (if String.eqb hotkey_type "start" then
        Eff.modify (set_key_start key) ;;;
        Eff.config_set "key_start" (JStr key_name_clean) ;;;
        a <- Eff.get ;;
        Eff.emit (KeyDisplay "start" (_key_name (key_start a)))
      else if String.eqb hotkey_type "pause" then
        Eff.modify (set_key_pause key) ;;;
        Eff.config_set "key_pause" (JStr key_name_clean) ;;;
        a <- Eff.get ;;
        Eff.emit (KeyDisplay "pause" (_key_name (key_pause a)))
      else if String.eqb hotkey_type "exit" then
        Eff.modify (set_key_exit key) ;;;
        Eff.config_set "key_exit" (JStr key_name_clean) ;;;
        a <- Eff.get ;;
        Eff.emit (KeyDisplay "exit" (_key_name (key_exit a)))
      else Eff.ret tt) ;;;
     Eff.emit (KeyDisplay "dialog" ("Tecla selecionada: " +:+ PyStr.upper key_name)) ;;;
     Eff.emit (DialogAcceptLater 1000) ;;;
     Eff.ret false)
    Py.any_exn
    (fun _ => Eff.ret false).

(** Lines 886-896: the listener is started, the helper thread waits in
    [join(timeout=15)], the dialog is shown. *)
Definition _capture_hotkey_rebind (hotkey_type : string) : capture :=
  mkCapture hotkey_type true false true.

(** Lines 904-912: the text of [info_label], the label of the main
    window that names the hotkeys. *)
Definition info_text (a : app) : string :=
  _key_name (key_start a) +:+ " - Iniciar (Start)" +:+ PyStr.newline +:+
  _key_name (key_pause a) +:+ " - Pausar/Parar (Pause/Stop)" +:+ PyStr.newline +:+
  _key_name (key_exit a) +:+ " - Sair (Exit)" +:+ PyStr.newline +:+ PyStr.newline +:+
  "Configure a coordenada antes de iniciar!" +:+ PyStr.newline +:+
  "Acesse Configurações para rebindar as teclas.".

(** One event of a capture.  A key press reaches [on_press] as long as
    the listener is alive.  When the [join] times out the helper thread
    just ends (lines 889-891).  The listener is stopped by [on_press]
    returning [False], or after [dialog.exec()] has returned (lines
    896-902); [info_label] is then rewritten from the three bindings
    (lines 904-912), once, the dialog being closed once. *)
Definition capture_step (i : capture_input) (c : capture) : M capture :=
  match i with
  | CapKey key =>
      if listener_alive c then
        continue <- on_press (hotkey_type c) key ;;
        Eff.ret (mkCapture (hotkey_type c) continue (join_returned c) (dialog_open c))
      else Eff.ret c
  | CapTimeout =>
      Eff.ret (mkCapture (hotkey_type c) (listener_alive c) true (dialog_open c))
  | CapDialogClosed =>
      if dialog_open c then
        a <- Eff.get ;;
        Eff.emit (KeyDisplay "info" (info_text a)) ;;;
        Eff.ret (mkCapture (hotkey_type c) false (join_returned c) false)
      else Eff.ret c
  end.

Fixpoint capture_run (ins : list capture_input) (c : capture) : M capture :=
  match ins with
  | [] => Eff.ret c
  | i :: ins' => c' <- capture_step i c ;; capture_run ins' c'
  end.

(** [on_press] of [_open_key_selector_dialog] (lines 1080-1102): the
    pressed key becomes the custom key. *)
Definition on_press_custom_key (key : pyval) : M bool :=
  Eff.try_except
    (key_name <- Eff.lift (pressed_key_name key) ;;
     Eff.modify (set_custom_key (Some key)) ;;;
     Eff.modify (set_custom_key_name (PyStr.upper key_name)) ;;;
     a <- Eff.get ;;
     Eff.config_set "custom_key_name" (JStr (custom_key_name a)) ;;;
     Eff.emit (KeyDisplay "custom" ("Tecla selecionada: " +:+ custom_key_name a)) ;;;
     Eff.emit (DialogAcceptLater 1000) ;;;
     Eff.ret false)
    Py.any_exn
    (fun _ => Eff.ret false).

(** *** The engine as a whole *)

(** What the outside does to the engine: the events of the two global
    listeners, the widgets, and the scheduler letting one of the
    execution-loop threads run a slice. *)
Inductive input : Type :=
  | KeyPressed (key : pyval)
  | MouseClicked (x y : Z) (b : button) (pressed : bool)
  | CaptureRequested
  | ActionChanged (id : Z)
  | TimingChanged (d h : Z)
  | ButtonSelected (id : Z)
  | HotkeyRebound (slot : string) (key : pyval)
  | CustomKeySelected (key : pyval)
  | WindowClosed
  | Run (tid : nat).

Definition run_thread (tid : nat) : M unit :=
  fun m =>
    match threads m !! tid with
    | None => (Ok tt, m)
    | Some t =>
        match _execute_macro t m with
        | (Ok t', m') =>
            (Ok tt, mkMachine (self m') (out m') (faults m') (<[tid := t']> (threads m')))
        | (Raise e, m') => (Raise e, m')
        end
    end.

Definition step (i : input) : M unit :=
  match i with
  | KeyPressed key => _on_key_press key
  | MouseClicked x y b pressed => _on_mouse_click x y b pressed
  | CaptureRequested => _start_capture_mode
  | ActionChanged id => _on_action_changed id
  | TimingChanged d h => _on_timing_changed d h
  | ButtonSelected id => Eff.modify (set_checkedId id)
  | HotkeyRebound slot key => _ <- on_press slot key ;; Eff.ret tt
  | CustomKeySelected key => _ <- on_press_custom_key key ;; Eff.ret tt
  | WindowClosed => closeEvent
  | Run tid => run_thread tid
  end.

Fixpoint run (ins : list input) (m : machine) : machine :=
  match ins with
  | [] => m
  | i :: ins' => run ins' (snd (step i m))
  end.

(** [__init__], lines 277-279: whatever the stored settings are, the
    engine starts idle, with no capture armed and no thread. *)
Definition init (a : app) (fs : list (option string)) : machine :=
  mkMachine (set_capture_mode false (set_is_paused false (set_is_running false a)))
    [] fs [].



End PyQt.

(* ===================================================================== *)
(** ** Tkinter_Versions/MacroV2.0/MacroV2.0.py                           *)
(* ===================================================================== *)

Module TkV2.
Import KeyNormalizer.

(** [_update_status] (lines 696-702); [color] names the entry of the
    theme the caller passes ([self.theme["error"]] is ["error"]). *)
Definition _update_status (message color : string) : M unit :=
  try_pass (Eff.emit (Status message color)).

(** [_release_all] (lines 677-694) *)
Definition _release_all : M unit :=
  try_pass (Eff.dev (MouseRelease Button_left)) ;;;
  try_pass (Eff.dev (MouseRelease Button_right)) ;;;
  try_pass (a <- Eff.get ;;
            match custom_key_set a with
            | Some k => Eff.dev (KeyRelease k)
            | None => Eff.ret tt
            end).

(** [_perform_action] (lines 651-661) *)
Definition _perform_action (b : button) (action : string) : M unit :=
  try_pass
    (if String.eqb action "click" then Eff.dev (MouseClick b)
     else
       Eff.dev (MousePress b) ;;;
       a <- Eff.get ;;
       Eff.sleep (hold_duration_ms a) ;;;
       Eff.dev (MouseRelease b)).

(** [_perform_keyboard_action] (lines 663-675) *)
Definition _perform_keyboard_action (key : pyval) (action : string) : M unit :=
  try_pass
    (if String.eqb action "click" then
       Eff.dev (KeyPress key) ;;;
       Eff.sleep 50 ;;;
       Eff.dev (KeyRelease key)
     else
       Eff.dev (KeyPress key) ;;;
       a <- Eff.get ;;
       Eff.sleep (hold_duration_ms a) ;;;
       Eff.dev (KeyRelease key)).

(** [_on_key_press] (lines 574-612) *)
Definition _on_key_press (key : pyval) : M unit :=
  Eff.try_except
    (a <- Eff.get ;;
     key_pressed <- Eff.lift (_normalize_key key) ;;
     k_start <- Eff.lift (_normalize_key (key_start a)) ;;
     k_pause <- Eff.lift (_normalize_key (key_pause a)) ;;
     k_exit <- Eff.lift (_normalize_key (key_exit a)) ;;
     if String.eqb key_pressed k_start then
       match saved_x a, saved_y a with
       | Some _, Some _ =>
           Eff.modify (set_is_running true) ;;;
           Eff.modify (set_is_paused false) ;;;
           _update_status "Executando..." "success" ;;;
           Eff.thread_start
       | _, _ =>
           Eff.emit (MessageBox "warning" "Aviso"
                       "Por favor, capture uma coordenada primeiro!")
       end
     else if String.eqb key_pressed k_pause then
       Eff.modify (set_is_running false) ;;;
       Eff.modify (set_is_paused true) ;;;
       _release_all ;;;
       _update_status "Pausado" "warning"
     else if String.eqb key_pressed k_exit then
       Eff.modify (set_is_running false) ;;;
       Eff.modify (set_is_paused false) ;;;
       _release_all ;;;
       Eff.save_config ;;;
       Eff.emit (CloseLater 500)
     else Eff.ret tt)
    is_AttributeError
    (fun _ => Eff.ret tt).

(** [_execute_macro], lines 617-623: what runs before the [while]; it
    yields the locals [action] and [button_type]. *)
Definition loop_prelude : M (string * string) :=
  a <- Eff.get ;;
  let action := action_type a in
  let button_type := button_type a in
  (if String.eqb button_type "esquerdo" || String.eqb button_type "direito"
   then Eff.dev (SetPosition (saved_x a) (saved_y a)) ;;; Eff.sleep 50
   else Eff.ret tt) ;;;
  Eff.ret (action, button_type).

(** [_execute_macro], lines 626-642: the body of the [while]. *)
Definition loop_body (action button_type : string) : M loop_ctl :=
  a <- Eff.get ;;
  ctl <- (if String.eqb button_type "esquerdo" then
            _perform_action Button_left action ;;; Eff.ret Continue
          else if String.eqb button_type "direito" then
            _perform_action Button_right action ;;; Eff.ret Continue
          else if String.eqb button_type "custom" then
            match custom_key_set a with
            | Some k => _perform_keyboard_action k action ;;; Eff.ret Continue
            | None =>
                _update_status "Erro: Nenhuma tecla customizada selecionada" "error" ;;;
                Eff.ret Break
            end
          else Eff.ret Continue) ;;
  match ctl with
  | Break => Eff.ret Break
  | Continue =>
      (if String.eqb action "click"
       then Eff.sleep (click_delay_ms a)
       else Eff.sleep (hold_duration_ms a + click_delay_ms a)) ;;;
      Eff.ret Continue
  end.

(** [_execute_macro], lines 644-645 *)
Definition loop_exit : M unit :=
  _release_all ;;;
  _update_status "Parado" "error".

(** [_execute_macro], lines 647-649 *)
Definition loop_except (e : exn) : M unit :=
  _update_status ("Erro: " +:+ exn_str e) "error".

(** [_execute_macro] (lines 614-649), one scheduling slice at a time. *)
Definition _execute_macro (t : tstate) : M tstate :=
  match t with
  | Created =>
      Eff.try_except
        (p <- loop_prelude ;; Eff.ret (Looping (fst p) (snd p)))
        Py.any_exn
        (fun e => loop_except e ;;; Eff.ret Finished)
  | Looping action button_type =>
      Eff.try_except
        (a <- Eff.get ;;
         if is_running a then
           ctl <- loop_body action button_type ;;
           match ctl with
           | Continue => Eff.ret t
           | Break => loop_exit ;;; Eff.ret Finished
           end
         else loop_exit ;;; Eff.ret Finished)
        Py.any_exn
        (fun e => loop_except e ;;; Eff.ret Finished)
  | Finished => Eff.ret Finished
  end.

(** [_on_mouse_click] (lines 704-719) *)
Definition _on_mouse_click (x y : Z) (b : button) (pressed : bool) : M unit :=
  a <- Eff.get ;;
  if capture_mode a && pressed then
    Eff.modify (set_saved_x (Some x)) ;;;
    Eff.modify (set_saved_y (Some y)) ;;;
    Eff.modify (set_capture_mode false) ;;;
    Eff.config_set "saved_x" (JInt x) ;;;
    Eff.config_set "saved_y" (JInt y) ;;;
    Eff.emit (CoordinatesUpdated x y) ;;;
    Eff.emit (CaptureButton true "Capturar Coordenada") ;;;
    _update_status "Coordenada capturada!" "success"
  else Eff.ret tt.

(** *** Hotkey capture: [_capture_key] (lines 792-831) *)

(** [on_press] (lines 798-820); it returns [False] on both paths. *)
Definition on_press (action : string) (key : pyval) : M bool :=
  Eff.try_except
    ((if String.eqb action "start" then
        Eff.modify (set_key_start key) ;;;
        Eff.config_set "key_start" (JStr (_key_to_string key))
      else if String.eqb action "pause" then
        Eff.modify (set_key_pause key) ;;;
        Eff.config_set "key_pause" (JStr (_key_to_string key))
      else if String.eqb action "exit" then
        Eff.modify (set_key_exit key) ;;;
        Eff.config_set "key_exit" (JStr (_key_to_string key))
      else Eff.ret tt) ;;;
     Eff.emit (KeyDisplay action (_key_name key)) ;;;
     Eff.ret false)
    Py.any_exn
    (fun _ => Eff.ret false).

(** A capture in progress: the slot and whether the listener of the
    [with] block still delivers key presses. *)
Record capture : Type := mkCapture {
  action : string;
  listener_alive : bool
}.

Inductive capture_input : Type :=
  | CapKey (key : pyval)
  | CapTimeout.

Definition _capture_key (action : string) : capture := mkCapture action true.

(** One event of a capture.  The listener lives inside
    [with Listener(...) as listener: listener.join(timeout=5)]: when the
    [join] returns, by the listener having stopped or by the 5 seconds
    running out, leaving the [with] block stops the listener, and the
    button is enabled again (lines 822-828). *)
Definition capture_step (i : capture_input) (c : capture) : M capture :=
  match i with
  | CapKey key =>
      if listener_alive c then
        continue <- on_press (action c) key ;;
        Eff.emit (CaptureButton true "") ;;;
        Eff.ret (mkCapture (action c) continue)
      else Eff.ret c
  | CapTimeout =>
      if listener_alive c then
        Eff.emit (CaptureButton true "") ;;;
        Eff.ret (mkCapture (action c) false)
      else Eff.ret c
  end.

Fixpoint capture_run (ins : list capture_input) (c : capture) : M capture :=
  match ins with
  | [] => Eff.ret c
  | i :: ins' => c' <- capture_step i c ;; capture_run ins' c'
  end.

End TkV2.

(* ===================================================================== *)
(** ** Tkinter_Versions/MacroV1.0/MacroV1.0.py                           *)
(* ===================================================================== *)

Module V1.

(** [_update_status] (lines 290-302) *)
Definition _update_status (message color : string) : M unit :=
  try_pass (Eff.emit (Status message color)).

(** How the wait in the [while] stands when the observations run out. *)
Inductive wait_end : Type := LoopLeft | StillWaiting.

(** Lines 266-267: [while self.is_running: time.sleep(0.05)].  The flag
    is written by the hotkey callback on the listener thread; [reads] are
    the values the successive tests of the loop find.  With no value
    left, the thread is still in the loop. *)
Fixpoint while_is_running (reads : list bool) : M wait_end :=
  match reads with
  | [] => Eff.ret StillWaiting
  | true :: reads' => Eff.sleep 50 ;;; while_is_running reads'
  | false :: _ => Eff.ret LoopLeft
  end.

(** Line 256: [Button.left if self.button_type.get() == "esquerdo" else
    Button.right]. *)
Definition selected_button (a : app) : button :=
  if String.eqb (button_type a) "esquerdo" then Button_left else Button_right.

(** [_execute_macro] (lines 249-275) *)
Definition _execute_macro (reads : list bool) : M wait_end :=
  Eff.try_except
    (a <- Eff.get ;;
     let b := selected_button a in
     Eff.dev (SetPosition (saved_x a) (saved_y a)) ;;;
     Eff.sleep 100 ;;;
     Eff.dev (MousePress b) ;;;
     w <- while_is_running reads ;;
     match w with
     | StillWaiting => Eff.ret StillWaiting
     | LoopLeft =>
         Eff.dev (MouseRelease b) ;;;
         _update_status "Parado" "red" ;;;
         Eff.ret LoopLeft
     end)
    Py.any_exn
    (fun e => _update_status ("Erro: " +:+ exn_str e) "red" ;;; Eff.ret LoopLeft).

End V1.

(** [ConfigManager.default_config] (PyQt lines 78-90). *)
Definition default_config : gmap string jval :=
  list_to_map
    [("theme", JStr "dark"); ("button_type", JStr "esquerdo");
     ("saved_x", JNull); ("saved_y", JNull);
     ("key_start", JStr "f1"); ("key_pause", JStr "f2"); ("key_exit", JStr "f3");
     ("click_delay_ms", JInt 100); ("action_type", JStr "click");
     ("hold_duration_ms", JInt 500); ("custom_key_name", JStr "Nenhuma")].

(** The application object used in the examples: the default settings
    with the target coordinate (134, 902) captured and Hold selected. *)
Definition example_app : app :=
  mkApp false false false (Some 134%Z) (Some 902%Z) "hold" "esquerdo" 100 500
    None "Nenhuma" (Key "f1") (Key "f2") (Key "f3")
    (<["action_type" := JStr "hold"]>
       (<["saved_y" := JInt 902]> (<["saved_x" := JInt 134]> default_config)))
    0.

(* ===================================================================== *)
(** ** ConfigManager and the start of the application                    *)
(* ===================================================================== *)

(** [ConfigManager] (PyQt lines 39-118, the same in [MacroV2.0.py] lines
    51-136).  The values of the file are those of [jval]; the reading and
    writing of the JSON text is left to [json]. *)
Module ConfigManager.

(** What [load_config] finds at [self.config_file]: no file, a file that
    [json.load] or the merge rejects, or a JSON object. *)
Inductive file_state : Type :=
  | Absent
  | Unreadable
  | Stored (config : gmap string jval).

(** [load_config] (PyQt lines 93-102): [{**self.default_config, **config}],
    the stored entries over the defaults; the defaults alone when the file
    is missing or cannot be read. *)
Definition load_config (f : file_state) : gmap string jval :=
  match f with
  | Stored config => config ∪ default_config
  | Unreadable => default_config
  | Absent => default_config
  end.

(** [get] (PyQt lines 113-114): [self.config.get(key, default)] *)
Definition get (config : gmap string jval) (key : string) (dflt : jval) : jval :=
  default dflt (config !! key).

(** [self.config[key] = value] of [set] (PyQt lines 116-118), without the
    write. *)
Definition set_entry (key : string) (value : jval) (config : gmap string jval)
    : gmap string jval :=
  <[key := value]> config.

End ConfigManager.

(** [MacroAutomationPyQt.__init__] (lines 271-310) with the part of
    [_init_ui] that checks a radio button (lines 423-434).  The [__init__]
    of [MacroV2.0.py] reads the same entries with the same defaults
    (lines 245-291), three of them into Tk variables; [checkedId] is of
    the PyQt window only. *)
Module Startup.
Import KeyNormalizer.

(** A stored value as the Python object [json.load] gives. *)
Definition py_of_jval (v : jval) : pyval :=
  match v with
  | JStr s => PStr s
  | JNull => PNone
  | JInt z => PObj NoAttr (pretty z)
  end.

(** The typed fields of [app] hold an integer or [None], an integer, a
    string, a key or [None]; a stored value of another type has no place
    in them ([None] below), the code would carry it along as it is. *)
Definition as_opt_int (v : jval) : option (option Z) :=
  match v with
  | JNull => Some None
  | JInt z => Some (Some z)
  | JStr _ => None
  end.

Definition as_int (v : jval) : option Z :=
  match v with JInt z => Some z | _ => None end.

Definition as_str (v : jval) : option string :=
  match v with JStr s => Some s | _ => None end.

Definition as_opt_key (v : jval) : option (option pyval) :=
  match v with
  | JNull => Some None
  | JStr s => Some (Some (PStr s))
  | JInt _ => None
  end.

(** Lines 423-434: the radio button of [self.button_type] is checked when
    the name is one of the three; otherwise none is, and [checkedId()]
    answers -1. *)
Definition checked_of (button_type : string) : Z :=
  if String.eqb button_type "esquerdo" then 0
  else if String.eqb button_type "direito" then 1
  else if String.eqb button_type "custom" then 2
  else (-1).

(** Lines 301-308: a hotkey is read as [_string_to_key] of the stored
    name. *)
Definition load_hotkey (config : gmap string jval) (key dflt : string) : pyval :=
  _string_to_key (py_of_jval (ConfigManager.get config key (JStr dflt))).

(** [__init__]: the application object built from the loaded settings. *)
Definition __init__ (config : gmap string jval) : option app :=
  sx ← as_opt_int (ConfigManager.get config "saved_x" JNull);
  sy ← as_opt_int (ConfigManager.get config "saved_y" JNull);
  action ← as_str (ConfigManager.get config "action_type" (JStr "click"));
  button ← as_str (ConfigManager.get config "button_type" (JStr "esquerdo"));
  delay ← as_int (ConfigManager.get config "click_delay_ms" (JInt 100));
  hold ← as_int (ConfigManager.get config "hold_duration_ms" (JInt 500));
  ckey ← as_opt_key (ConfigManager.get config "custom_key" JNull);
  cname ← as_str (ConfigManager.get config "custom_key_name" (JStr "Nenhuma"));
  Some (mkApp false false false sx sy action button delay hold ckey cname
          (load_hotkey config "key_start" "f1")
          (load_hotkey config "key_pause" "f2")
          (load_hotkey config "key_exit" "f3")
          config (checked_of button)).

(** The application started on a configuration file. *)
Definition start (f : ConfigManager.file_state) : option app :=
  __init__ (ConfigManager.load_config f).

End Startup.

(* ===================================================================== *)
(** ** More of MacroV2.0.py: the settings callbacks and the resets       *)
(* ===================================================================== *)

Module TkV2Settings.
Import KeyNormalizer.

(** The line break of the label texts. *)
Definition nl : string := PyStr.newline.

(** [_on_action_change] (lines 552-554).  The radio button has written
    [value] to the variable [self.action_type] before the command runs. *)
Definition _on_action_change (value : string) : M unit :=
  Eff.modify (set_action_type value) ;;;
  a <- Eff.get ;;
  Eff.config_set "action_type" (JStr (action_type a)).

(** [_on_timing_change] (lines 556-559).  The two spin boxes are free
    text fields bound to [tk.IntVar] variables; [delay] and [hold] are
    what [self.click_delay_ms.get()] and [self.hold_duration_ms.get()]
    answer: the integer of the field, or the [TclError] raised on a text
    that is no number.  Each read comes before the [set] it is the
    argument of. *)
Definition _on_timing_change (delay hold : res Z) : M unit :=
  d <- Eff.lift delay ;;
  Eff.modify (set_click_delay_ms d) ;;;
  Eff.config_set "click_delay_ms" (JInt d) ;;;
  h <- Eff.lift hold ;;
  Eff.modify (set_hold_duration_ms h) ;;;
  Eff.config_set "hold_duration_ms" (JInt h).

(** [_start_capture_mode] (lines 561-572) *)
Definition _start_capture_mode : M unit :=
  Eff.emit (MessageBox "information" "Captura de Coordenadas"
              ("Clique em qualquer ponto da tela para capturar a coordenada." +:+ nl +:+
               "O capture mode será desativado automaticamente após o clique.")) ;;;
  Eff.modify (set_capture_mode true) ;;;
  Eff.emit (CaptureButton false "Aguardando clique...") ;;;
  TkV2._update_status "Aguardando clique na tela..." "warning".

(** [on_press] of [_open_key_selector_dialog] (lines 899-935); the name
    of the key is taken by the statements of PyQt lines 850-855.  The
    dialog is destroyed a second later. *)
Definition on_press_custom_key (key : pyval) : M bool :=
  Eff.try_except
    (key_name <- Eff.lift (PyQt.pressed_key_name key) ;;
     Eff.modify (set_custom_key (Some key)) ;;;
     Eff.modify (set_custom_key_name (PyStr.upper key_name)) ;;;
     a <- Eff.get ;;
     Eff.config_set "custom_key_name" (JStr (custom_key_name a)) ;;;
     Eff.config_set "custom_key_stored" (JStr (PyStr.lower key_name)) ;;;
     Eff.emit (KeyDisplay "dialog" ("Tecla selecionada: " +:+ custom_key_name a)) ;;;
     Eff.emit (KeyDisplay "custom" ("Tecla selecionada: " +:+ custom_key_name a)) ;;;
     Eff.emit (DialogAcceptLater 1000) ;;;
     Eff.ret false)
    Py.any_exn
    (fun e => Eff.emit (KeyDisplay "dialog" ("Erro: " +:+ exn_str e)) ;;; Eff.ret false).

(** [_update_hotkey_display] (lines 987-1001): the text of the label
    that names the hotkeys. *)
Definition _update_hotkey_display : M unit :=
  try_pass
    (a <- Eff.get ;;
     Eff.emit (KeyDisplay "hotkeys"
                 (_key_name (key_start a) +:+ " - Iniciar (Start)" +:+ nl +:+
                  _key_name (key_pause a) +:+ " - Pausar/Parar (Pause/Stop)" +:+ nl +:+
                  _key_name (key_exit a) +:+ " - Sair (Exit)" +:+ nl +:+ nl +:+
                  "Dica: Configure a coordenada antes de iniciar!" +:+ nl +:+
                  "Acesse Configurações > Rebindar Teclas para mudar os hotkeys." +:+ nl +:+
                  "Você pode minimizar a janela durante a execução."))).

(** [_reset_keybinds] (lines 953-961) *)
Definition _reset_keybinds : M unit :=
  Eff.modify (set_key_start (Key "f1")) ;;;
  Eff.modify (set_key_pause (Key "f2")) ;;;
  Eff.modify (set_key_exit (Key "f3")) ;;;
  Eff.config_set "key_start" (JStr "f1") ;;;
  Eff.config_set "key_pause" (JStr "f2") ;;;
  Eff.config_set "key_exit" (JStr "f3") ;;;
  _update_hotkey_display.

(** [_reset_all] (lines 963-985); [answer] is what [askyesno] returns.
    The theme is reset in the configuration; the attributes
    [current_theme] and [theme] and the restyling of the widgets are not
    part of [app]. *)
Definition _reset_all (answer : bool) : M unit :=
  if answer then
    _reset_keybinds ;;;
    Eff.modify (set_click_delay_ms 100) ;;;
    Eff.modify (set_hold_duration_ms 500) ;;;
    Eff.modify (set_action_type "click") ;;;
    Eff.modify (set_button_type "esquerdo") ;;;
    Eff.modify (set_custom_key None) ;;;
    Eff.modify (set_custom_key_name "Nenhuma") ;;;
    Eff.config_set "theme" (JStr "dark") ;;;
    Eff.config_set "action_type" (JStr "click") ;;;
    Eff.config_set "click_delay_ms" (JInt 100) ;;;
    Eff.config_set "hold_duration_ms" (JInt 500) ;;;
    Eff.config_set "button_type" (JStr "esquerdo") ;;;
    Eff.config_set "custom_key" JNull ;;;
    Eff.config_set "custom_key_name" (JStr "Nenhuma") ;;;
    Eff.emit (KeyDisplay "custom" "Tecla selecionada: Nenhuma") ;;;
    Eff.emit (MessageBox "information" "Sucesso" "Configurações restauradas!")
  else Eff.ret tt.

(** [_on_closing] (lines 1067-1091): the engine is stopped, the inputs
    released and the current selection stored.  [delay] and [hold] are
    what the reads of the two [tk.IntVar] answer at lines 1075-1076, as in
    [_on_timing_change]; they are outside any [try], so a [TclError]
    leaves the function there, before the listeners are stopped and the
    window destroyed. *)
Definition _on_closing (delay hold : res Z) : M unit :=
  Eff.modify (set_is_running false) ;;;
  TkV2._release_all ;;;
  a <- Eff.get ;;
  Eff.config_set "button_type" (JStr (button_type a)) ;;;
  Eff.config_set "action_type" (JStr (action_type a)) ;;;
  d <- Eff.lift delay ;;
  Eff.config_set "click_delay_ms" (JInt d) ;;;
  h <- Eff.lift hold ;;
  Eff.config_set "hold_duration_ms" (JInt h) ;;;
  Eff.config_set "custom_key_name" (JStr (custom_key_name a)).

End TkV2Settings.

(* ===================================================================== *)
(** ** More of MacroV1.0.py: the coordinate capture                      *)
(* ===================================================================== *)

Module V1Capture.

(** [_release_mouse] (lines 277-288) *)
Definition _release_mouse : M unit :=
  try_pass (Eff.dev (MouseRelease Button_left)) ;;;
  try_pass (Eff.dev (MouseRelease Button_right)).

(** [_start_capture_mode] (lines 191-207); the status label is written
    directly. *)
Definition _start_capture_mode : M unit :=
  Eff.emit (MessageBox "information" "Captura de Coordenadas"
              ("Clique em qualquer ponto da tela para capturar a coordenada." +:+
               TkV2Settings.nl +:+
               "O capture mode será desativado automaticamente após o clique.")) ;;;
  Eff.modify (set_capture_mode true) ;;;
  Eff.emit (CaptureButton false "Aguardando clique...") ;;;
  Eff.emit (Status "Aguardando clique na tela..." "orange").

(** [_on_mouse_click] (lines 304-326): version 1.0 has no configuration
    to write. *)
Definition _on_mouse_click (x y : Z) (b : button) (pressed : bool) : M unit :=
  a <- Eff.get ;;
  if capture_mode a && pressed then
    Eff.modify (set_saved_x (Some x)) ;;;
    Eff.modify (set_saved_y (Some y)) ;;;
    Eff.modify (set_capture_mode false) ;;;
    Eff.emit (CoordinatesUpdated x y) ;;;
    Eff.emit (CaptureButton true "Capturar Coordenada") ;;;
    V1._update_status "Coordenada capturada!" "green"
  else Eff.ret tt.

(** The mouse listener delivering a sequence of events
    [(x, y, button, pressed)]. *)
Fixpoint mouse_events (evs : list (Z * Z * button * bool)) : M unit :=
  match evs with
  | [] => Eff.ret tt
  | (x, y, b, pressed) :: evs' => _on_mouse_click x y b pressed ;;; mouse_events evs'
  end.

End V1Capture.

(* ===================================================================== *)
(** ** Vocabulary of the statements                                      *)
(* ===================================================================== *)

(** What [_normalize_key] returns, as a total function. *)
Definition normalized (key : pyval) : string :=
  match key with
  | PStr s => PyStr.lower s
  | PObj (StrAttr n) _ => PyStr.lstrip_underscore (PyStr.lower n)
  | PObj _ r => PyStr.lower r
  end.

(** [wp c Q m]: run from [m], [c] ends (returning or raising) in a result
    and a machine that satisfy [Q]. *)
Definition wp {A} (c : M A) (Q : res A -> machine -> Prop) (m : machine) : Prop :=
  Q (fst (c m)) (snd (c m)).

(** [running] and [paused] are not both set. *)
Definition exclusive (a : app) : Prop := is_running a && is_paused a = false.

(** What [_release_all] asks of the capability when every call is made:
    both mouse buttons, then the custom key if one is set.  [r1], [r2],
    [r3] tell which calls returned. *)
Definition release_all_calls (a : app) (r1 r2 r3 : bool) : list event :=
  [Dev (MouseRelease Button_left) r1; Dev (MouseRelease Button_right) r2] ++
  match custom_key_set a with
  | Some k => [Dev (KeyRelease k) r3]
  | None => []
  end.

(** The application object after a capture at [(x, y)]. *)
Definition captured (x y : Z) (a : app) : app :=
  set_config (<["saved_y" := JInt y]> (<["saved_x" := JInt x]> (config a)))
    (set_capture_mode false (set_saved_y (Some y) (set_saved_x (Some x) a))).

(** A release of a mouse button, and any mouse event, among the inputs. *)
Definition is_mouse_release (i : PyQt.input) : bool :=
  match i with PyQt.MouseClicked _ _ _ false => true | _ => false end.

Definition is_mouse_event (i : PyQt.input) : bool :=
  match i with PyQt.MouseClicked _ _ _ _ => true | _ => false end.

(** The mouse listener of [MacroV2.0.py] delivering a sequence of events
    [(x, y, button, pressed)] to [_on_mouse_click], and a release among
    them. *)
Fixpoint tk_mouse_events (evs : list (Z * Z * button * bool)) (m : machine) : machine :=
  match evs with
  | [] => m
  | (x, y, b, pressed) :: evs' =>
      tk_mouse_events evs' (snd (TkV2._on_mouse_click x y b pressed m))
  end.

Definition is_release_event (e : Z * Z * button * bool) : bool := negb (snd e).

(** What a capture at [(x, y)] has made of the machine [m]: the target
    coordinate is [(x, y)], the capture is disarmed, both values are in
    the configuration and the configuration was written out with them;
    nothing else of the application object has changed. *)
Definition coordinate_captured (x y : Z) (m m' : machine) : Prop :=
  saved_x (self m') = Some x /\
  saved_y (self m') = Some y /\
  capture_mode (self m') = false /\
  config (self m') !! "saved_x" = Some (JInt x) /\
  config (self m') !! "saved_y" = Some (JInt y) /\
  SaveConfig (config (self m')) ∈ out m' /\
  self m' = captured x y (self m).

(** The dialog of a hotkey capture being closed, among what happens to
    the capture. *)
Definition is_dialog_closed (i : PyQt.capture_input) : bool :=
  match i with PyQt.CapDialogClosed => true | _ => false end.




(** The number of events of a kind in a trace. *)
Fixpoint count (p : event -> bool) (evs : list event) : nat :=
  match evs with
  | [] => 0
  | e :: evs' => (if p e then 1 else 0) + count p evs'
  end.

(** A call of [mouse_controller.press], whether it returned or not. *)
Definition is_press (e : event) : bool :=
  match e with Dev (MousePress _) _ => true | _ => false end.

(** A call of [mouse_controller.release], whether it returned or not. *)
Definition is_release (e : event) : bool :=
  match e with Dev (MouseRelease _) _ => true | _ => false end.

(** Stored settings with a negative hold duration, as [__init__] takes
    them from the configuration file (lines 293-294 check nothing):
    [hold_duration_ms = -100], [click_delay_ms = 50], Hold on the left
    button, the engine running. *)
Definition negative_hold_app : app :=
  set_is_running true (set_hold_duration_ms (-100) (set_click_delay_ms 50 example_app)).

(** The state reached by pressing Start once and letting the loop thread
    reach its [while]. *)
Definition running_once : machine :=
  PyQt.run [PyQt.KeyPressed (Key "f1"); PyQt.Run 0] (PyQt.init example_app []).

(** A configuration changed by a sequence of [ConfigManager.set], the
    first of the list applied first. *)
Definition config_sets (kvs : list (string * jval)) (config : gmap string jval)
    : gmap string jval :=
  foldl (fun c kv => ConfigManager.set_entry (fst kv) (snd kv) c) config kvs.

(** A usable key token: a member of the key table or a one-character
    string. *)
Definition usable_token (k : pyval) : Prop :=
  (exists n, n ∈ Key_names /\ k = Key n) \/
  (exists c, String.length c = 1 /\ k = PStr c).

(** The three hotkey slots, their entry in the configuration and their
    binding in the application object. *)
Definition is_slot (slot : string) : Prop :=
  slot = "start" \/ slot = "pause" \/ slot = "exit".

Definition slot_entry (slot : string) : string := "key_" +:+ slot.

Definition binding (slot : string) (a : app) : pyval :=
  if String.eqb slot "start" then key_start a
  else if String.eqb slot "pause" then key_pause a
  else key_exit a.

(** A printable ASCII character other than the quote and the backslash,
    as a one-character string: the characters [str] of a [KeyCode] shows
    as they are, between quotes. *)
Definition plain_char (c : string) : bool :=
  match c with
  | String ch EmptyString =>
      let n := nat_of_ascii ch in
      Nat.leb 32 n && Nat.leb n 126 && negb (Nat.eqb n 39) && negb (Nat.eqb n 92)
  | _ => false
  end.

(** [a'] is [a] up to the two flags [is_running] and [is_paused]. *)
Definition same_but_flags (a a' : app) : Prop :=
  a' = set_is_paused (is_paused a') (set_is_running (is_running a') a).


(** A mouse button is selected. *)
Definition mouse_selected (button_type : string) : bool :=
  String.eqb button_type "esquerdo" || String.eqb button_type "direito".

(** The sleep that ends an iteration. *)
Definition end_sleep (action : string) (a : app) : Z :=
  if String.eqb action "click" then click_delay_ms a
  else (hold_duration_ms a + click_delay_ms a)%Z.

(** The next call on the input capability returns. *)
Definition next_call_returns (m : machine) : bool :=
  match faults m with
  | Some _ :: _ => false
  | _ => true
  end.

(** A move of the pointer, whether it returned or not. *)
Definition is_move (e : event) : bool :=
  match e with Dev (SetPosition _ _) _ => true | _ => false end.

(** The application object with the three bindings and the
    configuration of another one. *)
Definition with_bindings_of (old a : app) : app :=
  set_config (config old)
    (set_key_exit (key_exit old) (set_key_pause (key_pause old)
       (set_key_start (key_start old) a))).

(** An optional integer as the configuration holds it. *)
Definition jint_opt (o : option Z) : jval :=
  match o with Some z => JInt z | None => JNull end.

(** An entry that is missing or a string; an entry that is missing,
    [null] or a string. *)
Definition str_entry (o : option jval) : bool :=
  match o with None | Some (JStr _) => true | _ => false end.

Definition key_entry (o : option jval) : bool :=
  match o with Some (JInt _) => false | _ => true end.

(** The configuration holds the settings of the application object: the
    target coordinate, the action, the two durations and the name of the
    custom key as they are in memory, and values of the expected type for
    the entries [__init__] reads besides. *)
Definition settings_stored (a : app) : Prop :=
  config a !! "saved_x" = Some (jint_opt (saved_x a)) /\
  config a !! "saved_y" = Some (jint_opt (saved_y a)) /\
  config a !! "action_type" = Some (JStr (action_type a)) /\
  config a !! "click_delay_ms" = Some (JInt (click_delay_ms a)) /\
  config a !! "hold_duration_ms" = Some (JInt (hold_duration_ms a)) /\
  str_entry (config a !! "button_type") = true /\
  config a !! "custom_key_name" = Some (JStr (custom_key_name a)) /\
  key_entry (config a !! "custom_key") = true.

(** What a computation keeps: the settings stored, and the entry of the
    custom key as it was in [m0]. *)
Definition keeps (m0 : machine) : res unit -> machine -> Prop :=
  fun _ m' =>
    settings_stored (self m') /\
    config (self m') !! "custom_key" = config (self m0) !! "custom_key".

(** The application object of a first start, with no configuration
    file: the default settings and no target coordinate. *)
Definition fresh_app : app :=
  mkApp false false false None None "click" "esquerdo" 100 500
    None "Nenhuma" (Key "f1") (Key "f2") (Key "f3") default_config 0.

(** The first press of a sequence of mouse events. *)
Definition first_press (evs : list (Z * Z * button * bool)) : option (Z * Z) :=
  match filter (fun e => snd e = true) evs with
  | (x, y, _, _) :: _ => Some (x, y)
  | [] => None
  end.

(* ===================================================================== *)
(** * Properties                                                         *)
(* ===================================================================== *)

(** ** Strings *)

Section StringFacts.
Import PyStr.

Lemma lower_ascii_idem (c : ascii) : lower_ascii (lower_ascii c) = lower_ascii c.
Proof. destruct c as [[] [] [] [] [] [] [] []]; reflexivity. Qed.

Lemma lower_idem (s : string) : lower (lower s) = lower s.
Proof.
  induction s as [|c s IH]; simpl; [reflexivity|].
  unfold lower in *. simpl. now rewrite lower_ascii_idem, IH.
Qed.

Lemma lowercase_cons (c : ascii) (s : string) :
  lowercase (String c s) -> lower_ascii c = c /\ lowercase s.
Proof. unfold lowercase, lower. simpl. intros H. now injection H. Qed.

Lemma lowercase_lstrip_underscore (s : string) :
  lowercase s -> lowercase (lstrip_underscore s).
Proof.
  induction s as [|c s IH]; intros H; simpl; [exact H|].
  destruct (Ascii.eqb c underscore); [|exact H].
  apply IH. now apply lowercase_cons in H.
Qed.

Lemma lowercase_lower (s : string) : lowercase (lower s).
Proof. apply lower_idem. Qed.

End StringFacts.

(** ** Key normaliser *)

Section KeyNormalizerFacts.
Import KeyNormalizer.

Lemma normalize_key_ok (key : pyval) : _normalize_key key = Ok (normalized key).
Proof. destruct key as [s|[|n|] r]; reflexivity. Qed.

Lemma normalized_lowercase (key : pyval) : PyStr.lowercase (normalized key).
Proof.
  destruct key as [s|[|n|] r]; simpl; try apply lowercase_lower.
  apply lowercase_lstrip_underscore, lowercase_lower.
Qed.

(** The members of the key table are written in lower case and none
    starts with an underscore. *)
Lemma Key_names_canonical (n : string) :
  n ∈ Key_names -> PyStr.lower n = n /\ PyStr.startswith_underscore n = false.
Proof.
  intros H.
  assert (Hall : Forall (fun k => PyStr.lower k = k /\ PyStr.startswith_underscore k = false)
                   Key_names).
  { unfold Key_names. repeat (constructor; [split; reflexivity|]). constructor. }
  rewrite Forall_forall in Hall. now apply Hall.
Qed.

(** A name of the key table goes to its member and comes back. *)
Lemma roundtrip_named_key (s : string) :
  PyStr.strip (PyStr.lower s) ∈ Key_names ->
  _key_to_string (_string_to_key (PStr s)) = PyStr.strip (PyStr.lower s).
Proof.
  intros H. unfold _string_to_key. simpl. unfold getattr_Key.
  rewrite bool_decide_eq_true_2 by exact H. simpl.
  destruct (Key_names_canonical _ H) as [Hl Hu].
  unfold _key_to_string. simpl. now rewrite Hl, Hu.
Qed.

(** A single character that is no member of the table is kept as the
    token (no member starts with an underscore, so the second lookup
    fails too), and [_key_to_string] answers ["f1"] for it. *)
Lemma roundtrip_single_char (s : string) :
  let c := PyStr.strip (PyStr.lower s) in
  String.length c = 1 -> c ∉ Key_names ->
  _string_to_key (PStr s) = PStr c /\ _key_to_string (_string_to_key (PStr s)) = "f1".
Proof.
  intros c Hlen H1.
  assert (E : _string_to_key (PStr s) = PStr c).
  { unfold _string_to_key. simpl. fold c. unfold getattr_Key.
    rewrite (bool_decide_eq_false_2 _ H1). simpl.
    now rewrite Hlen. }
  split; [exact E|]. now rewrite E.
Qed.

End KeyNormalizerFacts.

(** C10: [_normalize_key] returns for every input (a [str], an object
    with a [name], any other object), what it returns is a lower-case
    string, and normalising that string again gives it back. *)
Theorem C10_normalize_key_lower_idempotent (key : pyval) :
  exists s : string,
    KeyNormalizer._normalize_key key = Ok s /\
    PyStr.lowercase s /\
    KeyNormalizer._normalize_key (PStr s) = Ok s.
Proof.
  exists (normalized key). split; [apply normalize_key_ok|].
  split; [apply normalized_lowercase|].
  rewrite normalize_key_ok. simpl. f_equal. apply normalized_lowercase.
Qed.

(** C4: on the single-character name ["a"], [_string_to_key] does not fall
    back to the default token, it keeps the character; [_key_to_string]
    then finds no [name] on it and answers the default ["f1"], not the
    normalised name ["a"].  The named key ["f1"] does come back. *)
Theorem C4_roundtrip_single_char_gives_default :
  KeyNormalizer._string_to_key (PStr "a") = PStr "a" /\
  KeyNormalizer._string_to_key (PStr "a") <> Key "f1" /\
  PyStr.strip (PyStr.lower "a") = "a" /\
  KeyNormalizer._key_to_string (KeyNormalizer._string_to_key (PStr "a")) = "f1" /\
  KeyNormalizer._key_to_string (KeyNormalizer._string_to_key (PStr "a")) <> "a" /\
  KeyNormalizer._key_to_string (KeyNormalizer._string_to_key (PStr "F1")) = "f1".
Proof. repeat split; try reflexivity; discriminate. Qed.

(** What the listener delivers, normalised: a named key, a character, an
    unknown key. *)
Example normalize_key_samples :
  KeyNormalizer._normalize_key (Key "f1") = Ok "f1" /\
  KeyNormalizer._normalize_key (KeyCode "A") = Ok "'a'" /\
  KeyNormalizer._normalize_key (PStr "A") = Ok "a" /\
  KeyNormalizer._normalize_key PNone = Ok "none" /\
  KeyNormalizer._normalize_key (PObj OtherAttr "<Obj>") = Ok "<obj>".
Proof. repeat split. Qed.

(** ** Reasoning about the callbacks and the loop *)

Section WpRules.
Context {A B : Type}.
Implicit Types (m : machine).

Lemma wp_ret (a : A) Q m : Q (Ok a) m -> wp (Eff.ret a) Q m.
Proof. exact id. Qed.

Lemma wp_raise (e : exn) (Q : res A -> machine -> Prop) m :
  Q (Raise e) m -> wp (Eff.raise e) Q m.
Proof. exact id. Qed.

Lemma wp_lift (r : res A) Q m : Q r m -> wp (Eff.lift r) Q m.
Proof. exact id. Qed.

Lemma wp_bind (c : M A) (k : A -> M B) Q m :
  wp c (fun r m' => match r with
                    | Ok a => wp (k a) Q m'
                    | Raise e => Q (Raise e) m'
                    end) m ->
  wp (Eff.bind c k) Q m.
Proof. unfold wp, Eff.bind. destruct (c m) as [[a|e] m']; exact id. Qed.

Lemma wp_try (c : M A) (filter : exn -> bool) (h : exn -> M A) Q m :
  wp c (fun r m' => match r with
                    | Ok a => Q (Ok a) m'
                    | Raise e => if filter e then wp (h e) Q m' else Q (Raise e) m'
                    end) m ->
  wp (Eff.try_except c filter h) Q m.
Proof.
  unfold wp, Eff.try_except. destruct (c m) as [[a|e] m']; simpl; [exact id|].
  destruct (filter e); exact id.
Qed.

(** An equation on what a computation gives, read off [wp]. *)
Lemma wp_eq (c : M A) m (r : res A) (m' : machine) :
  wp c (fun r0 m0 => r0 = r /\ m0 = m') m -> c m = (r, m').
Proof. unfold wp. destruct (c m) as [r0 m0]. simpl. now intros [-> ->]. Qed.

Lemma wp_of_eq (c : M A) m (r : res A) (m' : machine) Q :
  c m = (r, m') -> Q r m' -> wp c Q m.
Proof. unfold wp. now intros ->. Qed.

End WpRules.

Section WpPrimitives.
Implicit Types (m : machine) (Q : res unit -> machine -> Prop).

Lemma wp_get (Q : res app -> machine -> Prop) m : Q (Ok (self m)) m -> wp Eff.get Q m.
Proof. exact id. Qed.

Lemma wp_modify (f : app -> app) Q m :
  Q (Ok tt) (mkMachine (f (self m)) (out m) (faults m) (threads m)) ->
  wp (Eff.modify f) Q m.
Proof. exact id. Qed.

Lemma wp_emit (e : event) Q m :
  Q (Ok tt) (mkMachine (self m) (out m ++ [e]) (faults m) (threads m)) ->
  wp (Eff.emit e) Q m.
Proof. exact id. Qed.

Lemma wp_thread_start Q m :
  Q (Ok tt) (mkMachine (self m) (out m ++ [ThreadStart]) (faults m) (threads m ++ [Created])) ->
  wp Eff.thread_start Q m.
Proof. exact id. Qed.

(** A capability call returns or raises, as the machine has it in store. *)
Lemma wp_dev (op : dev_op) Q m :
  (forall fs, Q (Ok tt) (mkMachine (self m) (out m ++ [Dev op true]) fs (threads m))) ->
  (forall msg fs,
      Q (Raise (OtherError msg))
        (mkMachine (self m) (out m ++ [Dev op false]) fs (threads m))) ->
  wp (Eff.dev op) Q m.
Proof.
  intros Hok Hfail. unfold wp, Eff.dev.
  destruct (faults m) as [|[msg|] fs]; simpl; auto.
Qed.

(** With no failure in store the call returns. *)
Lemma wp_dev_ok (op : dev_op) Q m :
  faults m = [] ->
  Q (Ok tt) (mkMachine (self m) (out m ++ [Dev op true]) [] (threads m)) ->
  wp (Eff.dev op) Q m.
Proof. intros Hf H. unfold wp, Eff.dev. now rewrite Hf. Qed.

Lemma wp_sleep (ms : Z) Q m :
  ((0 <= ms)%Z -> Q (Ok tt) (mkMachine (self m) (out m ++ [Sleep ms]) (faults m) (threads m))) ->
  ((ms < 0)%Z -> Q (Raise (ValueError "sleep length must be non-negative")) m) ->
  wp (Eff.sleep ms) Q m.
Proof.
  intros Hok Hneg. unfold wp, Eff.sleep.
  destruct (Z.ltb_spec ms 0); simpl; auto.
Qed.

End WpPrimitives.

Arguments wp : simpl never.

(** One step of symbolic execution of a computation under [wp]. *)
Ltac wp_step :=
  lazymatch goal with
  | |- wp (Eff.bind _ _) _ _ => apply wp_bind
  | |- wp (Eff.try_except _ _ _) _ _ => apply wp_try
  | |- wp (try_pass _) _ _ => unfold try_pass; apply wp_try
  | |- wp (Eff.ret _) _ _ => apply wp_ret
  | |- wp (Eff.raise _) _ _ => apply wp_raise
  | |- wp (Eff.lift _) _ _ => apply wp_lift; rewrite ?normalize_key_ok
  | |- wp Eff.get _ _ => apply wp_get
  | |- wp (Eff.modify _) _ _ => apply wp_modify
  | |- wp (Eff.emit _) _ _ => apply wp_emit
  | |- wp Eff.thread_start _ _ => apply wp_thread_start
  | |- wp Eff.save_config _ _ => unfold Eff.save_config
  | |- wp (Eff.config_set _ _) _ _ => unfold Eff.config_set
  | |- wp (Eff.dev _) _ _ => apply wp_dev; intros
  | |- wp (Eff.sleep _) _ _ => apply wp_sleep; intros
  | |- wp (if ?b then _ else _) _ _ =>
      first [ match goal with H : b = _ |- _ => rewrite H end | destruct b eqn:? ]
  | |- wp (match ?x with _ => _ end) _ _ =>
      first [ match goal with H : x = _ |- _ => rewrite H end | destruct x eqn:? ]
  | |- if Py.any_exn _ then _ else _ => unfold Py.any_exn
  | |- if is_AttributeError ?e then _ else _ => destruct e
  | |- match ?r with Ok _ => _ | Raise _ => _ end => destruct r eqn:?
  end; cbv beta iota; cbn [self out faults threads fst snd is_AttributeError].

Ltac wp_run := repeat wp_step.

(** ** The PyQt engine *)

Section PyQtFacts.
Import PyQt.

(** [_release_all] makes all its calls whatever they answer, never
    raises and leaves the application object alone. *)
Lemma wp_release_all (Q : res unit -> machine -> Prop) (m : machine) :
  (forall r1 r2 r3 fs,
      Q (Ok tt) (mkMachine (self m) (out m ++ release_all_calls (self m) r1 r2 r3)
                   fs (threads m))) ->
  wp _release_all Q m.
Proof.
  intros H. unfold _release_all.
  wp_run; rewrite <- ?app_assoc; simpl;
    match goal with
    | |- Q _ (mkMachine _ (_ ++ [Dev _ ?r1; Dev _ ?r2; Dev _ ?r3]) ?fs _) =>
        specialize (H r1 r2 r3 fs)
    | |- Q _ (mkMachine _ (_ ++ [Dev _ ?r1; Dev _ ?r2]) ?fs _) =>
        specialize (H r1 r2 true fs)
    end;
    unfold release_all_calls in H;
    match goal with E : custom_key_set _ = _ |- _ => rewrite E in H end;
    exact H.
Qed.

End PyQtFacts.

Ltac wp_step' :=
  lazymatch goal with
  | |- wp PyQt._release_all _ _ => apply wp_release_all; intros
  | |- wp PyQt.loop_exit _ _ => unfold PyQt.loop_exit
  | |- wp (PyQt.loop_except _) _ _ => unfold PyQt.loop_except
  | |- wp (PyQt._perform_action _ _) _ _ => unfold PyQt._perform_action
  | |- wp (PyQt._perform_keyboard_action _ _) _ _ => unfold PyQt._perform_keyboard_action
  | |- wp PyQt.loop_body _ _ => unfold PyQt.loop_body
  | |- wp PyQt.loop_prelude _ _ => unfold PyQt.loop_prelude
  | |- wp (V1._update_status _ _) _ _ => unfold V1._update_status
  | |- wp (TkV2._update_status _ _) _ _ => unfold TkV2._update_status
  | |- _ => wp_step
  end; cbv beta iota; cbn [self out faults threads fst snd].

Ltac wp_run' := repeat wp_step'.

(** The same on a machine with no capability failure in store, where
    every branch is decided: the calls return, and a sleep raises only on a
    negative length. *)
Ltac wp_det_step :=
  lazymatch goal with
  | |- wp (Eff.dev _) _ _ => apply wp_dev_ok; [reflexivity|]
  | |- wp (Eff.sleep _) _ _ => apply wp_sleep; intros; [try (exfalso; lia)|try (exfalso; lia)]
  | |- _ => wp_step'
  end; cbv beta iota; cbn [self out faults threads fst snd].

Ltac wp_det := repeat wp_det_step.

Section PyQtInvariant.
Import PyQt.

(** A slice of the execution loop returns the thread's new state and
    writes neither flag nor the thread table. *)
Lemma execute_macro_frame (t : tstate) (m : machine) :
  wp (_execute_macro t)
     (fun r m' => (exists t', r = Ok t') /\
                  is_running (self m') = is_running (self m) /\
                  is_paused (self m') = is_paused (self m) /\
                  threads m' = threads m) m.
Proof.
  destruct t; unfold _execute_macro; wp_run'; simpl; eauto 6.
Qed.

Lemma step_exclusive (i : input) (m : machine) :
  exclusive (self m) -> exclusive (self (snd (step i m))).
Proof.
  intros Hm.
  change (wp (step i) (fun _ m' => exclusive (self m')) m).
  destruct i; unfold step.
  - unfold _on_key_press. wp_run'; try reflexivity; exact Hm.
  - unfold _on_mouse_click. wp_run'; exact Hm.
  - unfold _start_capture_mode. wp_run'. exact Hm.
  - unfold _on_action_changed. wp_run'. exact Hm.
  - unfold _on_timing_changed. wp_run'. exact Hm.
  - wp_run'. exact Hm.
  - unfold on_press. wp_run'; exact Hm.
  - unfold on_press_custom_key. wp_run'; exact Hm.
  - unfold closeEvent. wp_run'. reflexivity.
  - unfold wp, run_thread.
    destruct (threads m !! tid) as [t|]; [|exact Hm].
    pose proof (execute_macro_frame t m) as H. unfold wp in H.
    destruct (_execute_macro t m) as [[t'|e] m']; simpl in *;
      destruct H as (_ & Hr & Hp & _); unfold exclusive; now rewrite Hr, Hp.
Qed.

Lemma run_exclusive (ins : list input) (m : machine) :
  exclusive (self m) -> exclusive (self (run ins m)).
Proof.
  revert m. induction ins as [|i ins IH]; intros m Hm; simpl; [exact Hm|].
  apply IH, step_exclusive, Hm.
Qed.

End PyQtInvariant.

(** C5: from the initial state of [__init__] (idle, not paused), whatever
    the stored settings and whatever the listeners, the widgets and the
    scheduler of the execution-loop threads do afterwards, [is_running] and
    [is_paused] are never both true.  A callback is one transition: inside
    the Start callback [is_running] is set one statement before [is_paused]
    is cleared. *)
Theorem C5_running_paused_exclusive
    (a : app) (fs : list (option string)) (ins : list PyQt.input) :
  let m := PyQt.run ins (PyQt.init a fs) in
  is_running (self m) && is_paused (self m) = false.
Proof.
  intros m. apply (run_exclusive ins (PyQt.init a fs)). reflexivity.
Qed.

(** ** The hotkey dispatcher and the coordinate capture *)

Section DispatcherFacts.
Import PyQt.


(** A release of a mouse button is never a capture. *)
Lemma mouse_release_ignored (x y : Z) (b : button) (m : machine) :
  _on_mouse_click x y b false m = (Ok tt, m).
Proof.
  apply wp_eq. unfold _on_mouse_click. wp_step. wp_step.
  rewrite andb_false_r. wp_run. auto.
Qed.

(** With no capture armed, a mouse event does nothing. *)
Lemma mouse_click_disarmed (x y : Z) (b : button) (pressed : bool) (m : machine) :
  capture_mode (self m) = false ->
  _on_mouse_click x y b pressed m = (Ok tt, m).
Proof.
  intros H. apply wp_eq. unfold _on_mouse_click. wp_step. wp_step.
  rewrite H. cbn [andb]. wp_run. auto.
Qed.

Lemma mouse_press_armed (x y : Z) (b : button) (m : machine) :
  capture_mode (self m) = true ->
  _on_mouse_click x y b true m =
    (Ok tt,
     mkMachine (captured x y (self m))
       (out m ++ [SaveConfig (<["saved_x" := JInt x]> (config (self m)));
                  SaveConfig (<["saved_y" := JInt y]> (<["saved_x" := JInt x]> (config (self m))));
                  CoordinatesUpdated x y;
                  CaptureButton true "Capturar Coordenada";
                  Status "Coordenada capturada!" "success"])
       (faults m) (threads m)).
Proof.
  intros H. apply wp_eq. unfold _on_mouse_click. wp_step. wp_step.
  rewrite H. cbn [andb]. wp_run. rewrite <- !app_assoc. auto.
Qed.

Lemma run_app (ins1 ins2 : list input) (m : machine) :
  run (ins1 ++ ins2) m = run ins2 (run ins1 m).
Proof. revert m. induction ins1 as [|i ins1 IH]; intros m; simpl; auto. Qed.

Lemma run_mouse_releases (ins : list input) (m : machine) :
  forallb is_mouse_release ins = true -> run ins m = m.
Proof.
  revert m. induction ins as [|i ins IH]; intros m H; simpl in *; [reflexivity|].
  apply andb_true_iff in H as [Hi H].
  destruct i as [| x y b [] | | | | | | | |]; try discriminate.
  simpl. rewrite mouse_release_ignored. simpl. now apply IH.
Qed.

Lemma run_mouse_disarmed (ins : list input) (m : machine) :
  capture_mode (self m) = false ->
  forallb is_mouse_event ins = true -> run ins m = m.
Proof.
  revert m. induction ins as [|i ins IH]; intros m Hc H; simpl in *; [reflexivity|].
  apply andb_true_iff in H as [Hi H].
  destruct i; try discriminate.
  simpl. rewrite mouse_click_disarmed by exact Hc. simpl. now apply IH.
Qed.

End DispatcherFacts.

(** C6: the Start hotkey pressed with no target coordinate stored
    ([saved_x] or [saved_y] is [None]): the warning box is shown and
    nothing else happens; no thread is started and the application object,
    the flags included, is as before. *)
Theorem C6_start_without_coordinate_warns (key : pyval) (m : machine) :
  KeyNormalizer._normalize_key key = KeyNormalizer._normalize_key (key_start (self m)) ->
  saved_x (self m) = None \/ saved_y (self m) = None ->
  PyQt._on_key_press key m =
    (Ok tt,
     mkMachine (self m)
       (out m ++ [MessageBox "warning" "Aviso" "Por favor, capture uma coordenada primeiro!"])
       (faults m) (threads m)).
Proof.
  intros Hk Hnone.
  rewrite !normalize_key_ok in Hk. injection Hk as Hk. apply String.eqb_eq in Hk.
  apply wp_eq. unfold PyQt._on_key_press.
  destruct Hnone as [H|H]; wp_run; auto.
Qed.

(** C6 at the key F1 with [saved_x] missing. *)
Lemma C6_start_without_coordinate_warns_witness :
  let m := PyQt.init (set_saved_x None example_app) [] in
  PyQt._on_key_press (Key "F1") m =
    (Ok tt,
     mkMachine (self m)
       (out m ++ [MessageBox "warning" "Aviso" "Por favor, capture uma coordenada primeiro!"])
       (faults m) (threads m)).
Proof.
  intros m. apply (C6_start_without_coordinate_warns (Key "F1") m).
  - reflexivity.
  - left. reflexivity.
Defined.




(** The same callback in [MacroV2.0.py]. *)
Section TkMouseFacts.
Import TkV2.

Lemma tk_mouse_press_armed (x y : Z) (b : button) (m : machine) :
  capture_mode (self m) = true ->
  _on_mouse_click x y b true m =
    (Ok tt,
     mkMachine (captured x y (self m))
       (out m ++ [SaveConfig (<["saved_x" := JInt x]> (config (self m)));
                  SaveConfig (<["saved_y" := JInt y]> (<["saved_x" := JInt x]> (config (self m))));
                  CoordinatesUpdated x y;
                  CaptureButton true "Capturar Coordenada";
                  Status "Coordenada capturada!" "success"])
       (faults m) (threads m)).
Proof.
  intros H. apply wp_eq. unfold _on_mouse_click. wp_step. wp_step.
  rewrite H. cbn [andb]. wp_run'. rewrite <- !app_assoc. auto.
Qed.

Lemma tk_mouse_release_ignored (x y : Z) (b : button) (m : machine) :
  _on_mouse_click x y b false m = (Ok tt, m).
Proof.
  apply wp_eq. unfold _on_mouse_click. wp_step. wp_step.
  rewrite andb_false_r. wp_run. auto.
Qed.

Lemma tk_mouse_click_disarmed (x y : Z) (b : button) (pressed : bool) (m : machine) :
  capture_mode (self m) = false -> _on_mouse_click x y b pressed m = (Ok tt, m).
Proof.
  intros H. apply wp_eq. unfold _on_mouse_click. wp_step. wp_step.
  rewrite H. cbn [andb]. wp_run. auto.
Qed.

Lemma tk_mouse_events_app (evs1 evs2 : list (Z * Z * button * bool)) (m : machine) :
  tk_mouse_events (evs1 ++ evs2) m = tk_mouse_events evs2 (tk_mouse_events evs1 m).
Proof.
  revert m. induction evs1 as [|[[[x y] b] p] evs1 IH]; intros m; simpl; auto.
Qed.

Lemma tk_mouse_events_releases (evs : list (Z * Z * button * bool)) (m : machine) :
  forallb is_release_event evs = true -> tk_mouse_events evs m = m.
Proof.
  induction evs as [|[[[x y] b] p] evs IH]; intros H; simpl in *; [reflexivity|].
  apply andb_true_iff in H as [Hp H]. destruct p; [discriminate|].
  rewrite tk_mouse_release_ignored. simpl. now apply IH.
Qed.

Lemma tk_mouse_events_disarmed (evs : list (Z * Z * button * bool)) (m : machine) :
  capture_mode (self m) = false -> tk_mouse_events evs m = m.
Proof.
  intros H. induction evs as [|[[[x y] b] p] evs IH]; simpl; [reflexivity|].
  rewrite tk_mouse_click_disarmed by exact H. exact IH.
Qed.

End TkMouseFacts.

(** What the armed press leaves, in either version. *)
Lemma press_captures (x y : Z) (m : machine) :
  coordinate_captured x y m
    (mkMachine (captured x y (self m))
       (out m ++ [SaveConfig (<["saved_x" := JInt x]> (config (self m)));
                  SaveConfig (<["saved_y" := JInt y]> (<["saved_x" := JInt x]> (config (self m))));
                  CoordinatesUpdated x y;
                  CaptureButton true "Capturar Coordenada";
                  Status "Coordenada capturada!" "success"])
       (faults m) (threads m)).
Proof.
  unfold coordinate_captured, captured. cbn [self out]. simpl.
  repeat split.
  - rewrite lookup_insert_ne by discriminate. apply lookup_insert_eq.
  - apply lookup_insert_eq.
  - rewrite elem_of_app. right. set_solver.
Qed.

(** C7: with the coordinate capture armed, releases are ignored and the
    first press, of any button, at [(x, y)] becomes the target coordinate:
    [saved_x] and [saved_y] are set, the capture is disarmed, both values
    are in the configuration, which is written out with them, and later
    mouse events change nothing.  This holds of the PyQt engine, whose
    mouse events may come among the inputs of the whole engine, and of
    the mouse callback of [MacroV2.0.py]. *)
Theorem C7_first_press_captures_coordinate
    (m : machine) (pre post : list PyQt.input)
    (tk_pre tk_post : list (Z * Z * button * bool)) (x y : Z) (b : button) :
  capture_mode (self m) = true ->
  forallb is_mouse_release pre = true ->
  forallb is_mouse_event post = true ->
  forallb is_release_event tk_pre = true ->
  coordinate_captured x y m
    (PyQt.run (pre ++ PyQt.MouseClicked x y b true :: post) m) /\
  coordinate_captured x y m
    (tk_mouse_events (tk_pre ++ (x, y, b, true) :: tk_post) m).
Proof.
  intros Hc Hpre Hpost Htk. split.
  - rewrite run_app, (run_mouse_releases pre m Hpre).
    cbn [PyQt.run PyQt.step]. rewrite (mouse_press_armed x y b m Hc). cbn [snd].
    rewrite run_mouse_disarmed by (auto; reflexivity).
    apply press_captures.
  - rewrite tk_mouse_events_app, (tk_mouse_events_releases tk_pre m Htk).
    cbn [tk_mouse_events]. rewrite (tk_mouse_press_armed x y b m Hc). cbn [snd].
    rewrite tk_mouse_events_disarmed by reflexivity.
    apply press_captures.
Qed.

(** C7 at a release, a press of the right button at (134, 902) and a
    later press elsewhere, in both versions. *)
Lemma C7_first_press_captures_coordinate_witness :
  let m := snd (PyQt._start_capture_mode (PyQt.init (set_saved_x None example_app) [])) in
  coordinate_captured 134 902 m
    (PyQt.run ([PyQt.MouseClicked 7 8 Button_left false] ++
               PyQt.MouseClicked 134 902 Button_right true ::
               [PyQt.MouseClicked 1 2 Button_left true]) m) /\
  coordinate_captured 134 902 m
    (tk_mouse_events ([(7, 8, Button_left, false)] ++
                      (134, 902, Button_right, true) ::
                      [(1, 2, Button_left, true)])%Z m).
Proof.
  intros m.
  apply (C7_first_press_captures_coordinate m
           [PyQt.MouseClicked 7 8 Button_left false]
           [PyQt.MouseClicked 1 2 Button_left true]
           [(7, 8, Button_left, false)]%Z
           [(1, 2, Button_left, true)]%Z 134 902 Button_right);
    reflexivity.
Defined.

(** ** The execution loop *)




(** ** Version 1.0: one continuous hold *)

Section V1Facts.
Import V1.

Lemma count_app (p : event -> bool) (l1 l2 : list event) :
  count p (l1 ++ l2) = count p l1 + count p l2.
Proof. induction l1 as [|e l1 IH]; simpl; [reflexivity|]. rewrite IH. lia. Qed.

Lemma count_sleeps (p : event -> bool) (k : nat) (ms : Z) :
  p (Sleep ms) = false -> count p (replicate k (Sleep ms)) = 0.
Proof. intros H. induction k as [|k IH]; simpl; [reflexivity|]. now rewrite H, IH. Qed.

(** [n] tests find the flag set, the next finds it cleared: the loop has
    slept [n] times 50 ms and is left. *)
Lemma while_is_running_left (n : nat) (rest : list bool)
    (a : app) (o : list event) (th : list tstate) :
  while_is_running (replicate n true ++ false :: rest) (mkMachine a o [] th) =
    (Ok LoopLeft, mkMachine a (o ++ replicate n (Sleep 50)) [] th).
Proof.
  revert o. induction n as [|n IH]; intros o; simpl.
  - now rewrite app_nil_r.
  - apply wp_eq. wp_det. eapply wp_of_eq; [apply IH|].
    cbv beta iota. rewrite <- app_assoc. auto.
Qed.

(** Every test so far found the flag set: the thread is still in the
    loop. *)
Lemma while_is_running_waiting (n : nat)
    (a : app) (o : list event) (th : list tstate) :
  while_is_running (replicate n true) (mkMachine a o [] th) =
    (Ok StillWaiting, mkMachine a (o ++ replicate n (Sleep 50)) [] th).
Proof.
  revert o. induction n as [|n IH]; intros o; simpl.
  - now rewrite app_nil_r.
  - apply wp_eq. wp_det. eapply wp_of_eq; [apply IH|].
    cbv beta iota. rewrite <- app_assoc. auto.
Qed.

(** Whatever the tests find, the loop itself only sleeps 50 ms at a time
    and never raises. *)
Lemma while_is_running_only_sleeps (reads : list bool) (m : machine) :
  exists (w : wait_end) (k : nat),
    while_is_running reads m =
      (Ok w, mkMachine (self m) (out m ++ replicate k (Sleep 50)) (faults m) (threads m)).
Proof.
  revert m. induction reads as [|[|] reads IH]; intros m.
  - exists StillWaiting, 0. simpl. rewrite app_nil_r. now destruct m.
  - destruct (IH (mkMachine (self m) (out m ++ [Sleep 50]) (faults m) (threads m)))
      as (w & k & E).
    exists w, (S k). apply wp_eq. simpl. wp_step. wp_step; [|lia].
    eapply wp_of_eq; [exact E|]. cbn [self out faults threads].
    rewrite <- app_assoc. auto.
  - exists LoopLeft, 0. simpl. rewrite app_nil_r. now destruct m.
Qed.

End V1Facts.

(** C9: in version 1.0 (no capability call failing) the run moves the
    pointer, presses the selected button once, then only sleeps 50 ms per
    test of [is_running] that finds it set, and once the flag is found
    cleared releases the button once and reports "Parado": one continuous
    hold.  While the flag stays set the button has been pressed once and
    not released.  And whatever the capability answers and whatever the
    tests find, a run calls [press] at most once and [release] at most
    once. *)
Theorem C9_v1_single_press_single_release
    (a : app) (o : list event) (th : list tstate) (n : nat) (rest : list bool) :
  let b := V1.selected_button a in
  let start := [Dev (SetPosition (saved_x a) (saved_y a)) true; Sleep 100;
                Dev (MousePress b) true] in
  V1._execute_macro (replicate n true ++ false :: rest) (mkMachine a o [] th) =
    (Ok V1.LoopLeft,
     mkMachine a
       (o ++ start ++ replicate n (Sleep 50) ++
        [Dev (MouseRelease b) true; Status "Parado" "red"])
       [] th) /\
  V1._execute_macro (replicate n true) (mkMachine a o [] th) =
    (Ok V1.StillWaiting, mkMachine a (o ++ start ++ replicate n (Sleep 50)) [] th) /\
  (forall (reads : list bool) (m : machine),
      exists evs : list event,
        out (snd (V1._execute_macro reads m)) = out m ++ evs /\
        count is_press evs <= 1 /\ count is_release evs <= 1).
Proof.
  intros b start. split; [|split].
  - apply wp_eq; unfold V1._execute_macro; wp_det.
    eapply wp_of_eq; [apply while_is_running_left|]. cbv beta iota.
    wp_det. subst start b. rewrite <- !app_assoc. simpl. auto.
  - apply wp_eq; unfold V1._execute_macro; wp_det.
    eapply wp_of_eq; [apply while_is_running_waiting|]. cbv beta iota.
    wp_det. subst start b. rewrite <- !app_assoc. simpl. auto.
  - intros reads m.
    change (wp (V1._execute_macro reads)
              (fun _ m' => exists evs, out m' = out m ++ evs /\
                                       count is_press evs <= 1 /\
                                       count is_release evs <= 1) m).
    unfold V1._execute_macro. wp_run';
      try match goal with
        | |- wp (V1.while_is_running ?r) _ ?m0 =>
            destruct (while_is_running_only_sleeps r m0) as (w & k & E);
            eapply wp_of_eq; [exact E|]; cbv beta iota;
            cbn [self out faults threads]; wp_run'
        end;
      rewrite <- ?app_assoc; eexists; (split; [reflexivity|]);
      rewrite ?count_app, ?count_sleeps by reflexivity; simpl; lia.
Qed.

(** ** Leaving the execution loop *)

Section LoopExit.
Import PyQt.

(** Leaving the loop through the flag: all held inputs are released, then
    "Parado" is reported. *)
Lemma execute_macro_flag_cleared (x y : string) (m : machine) :
  is_running (self m) = false ->
  wp (_execute_macro (Looping x y))
     (fun r m' =>
        r = Ok Finished /\
        exists r1 r2 r3,
          out m' = out m ++ release_all_calls (self m) r1 r2 r3 ++
                   [Status "Parado" "error"]) m.
Proof.
  intros Hrun. unfold _execute_macro. wp_run'.
  split; [reflexivity|]. exists r1, r2, r3. now rewrite <- app_assoc.
Qed.

(** Leaving the loop through the [break] of the missing custom key: the
    error is reported first, then the inputs are released and "Parado" is
    the last status. *)
Lemma execute_macro_missing_custom_key (x y : string) (m : machine) :
  is_running (self m) = true ->
  button_type (self m) = "custom" ->
  custom_key_set (self m) = None ->
  wp (_execute_macro (Looping x y))
     (fun r m' =>
        r = Ok Finished /\
        exists r1 r2 r3,
          out m' = out m ++
                   [Status "Erro: Nenhuma tecla customizada selecionada" "error"] ++
                   release_all_calls (self m) r1 r2 r3 ++
                   [Status "Parado" "error"]) m.
Proof.
  intros Hrun Hbt Hck.
  assert (E0 : String.eqb (button_type (self m)) "esquerdo"
               || String.eqb (button_type (self m)) "direito" = false)
    by now rewrite Hbt.
  assert (E1 : String.eqb (button_type (self m)) "esquerdo" = false)
    by now rewrite Hbt.
  assert (E2 : String.eqb (button_type (self m)) "direito" = false)
    by now rewrite Hbt.
  assert (E3 : String.eqb (button_type (self m)) "custom" = true)
    by now rewrite Hbt.
  unfold _execute_macro. wp_run'.
  split; [reflexivity|]. exists r1, r2, r3. now rewrite <- !app_assoc.
Qed.

(** Leaving the loop through an exception of the body: the handler
    reports the error and that is all; nothing is released. *)
Lemma execute_macro_body_raises (x y : string) (m m1 : machine) (e : exn) :
  is_running (self m) = true ->
  loop_body m = (Raise e, m1) ->
  _execute_macro (Looping x y) m =
    (Ok Finished,
     mkMachine (self m1) (out m1 ++ [Status ("Erro: " +:+ exn_str e) "error"])
       (faults m1) (threads m1)).
Proof.
  intros Hrun Hbody. apply wp_eq. unfold _execute_macro.
  wp_step'. wp_step'. wp_step'. wp_step'. wp_step'.
  eapply wp_of_eq; [exact Hbody|]. cbv beta iota.
  wp_run'. auto.
Qed.

End LoopExit.

(** C3: an iteration that raises ends the thread in the handler of
    [_execute_macro], which reports "Erro: ..." and never calls
    [_release_all].  With a negative hold duration the left button is
    pressed, the hold sleep raises inside [_perform_action] (swallowed
    there, the release skipped), the end-of-iteration sleep raises, and the
    button stays pressed when the error is reported.  The same happens when
    the pointer move fails, and in the Tkinter version. *)
Theorem C3_exception_exit_skips_release_all :
  PyQt._execute_macro (Looping "" "") (mkMachine negative_hold_app [] [] [Looping "" ""]) =
    (Ok Finished,
     mkMachine negative_hold_app
       [Dev (SetPosition (Some 134%Z) (Some 902%Z)) true; Sleep 50;
        Dev (MousePress Button_left) true;
        Status "Erro: sleep length must be non-negative" "error"]
       [] [Looping "" ""]) /\
  PyQt._execute_macro (Looping "" "")
      (mkMachine (set_is_running true example_app) [] [Some "pointer unavailable"]
         [Looping "" ""]) =
    (Ok Finished,
     mkMachine (set_is_running true example_app)
       [Dev (SetPosition (Some 134%Z) (Some 902%Z)) false;
        Status "Erro: pointer unavailable" "error"]
       [] [Looping "" ""]) /\
  TkV2._execute_macro (Looping "hold" "esquerdo")
      (mkMachine negative_hold_app [] [] [Looping "hold" "esquerdo"]) =
    (Ok Finished,
     mkMachine negative_hold_app
       [Dev (MousePress Button_left) true;
        Status "Erro: sleep length must be non-negative" "error"]
       [] [Looping "hold" "esquerdo"]).
Proof. vm_compute. repeat split. Qed.

(** ** Hotkey capture and its timeout *)

Section CaptureFacts.

(** PyQt: the [join] timing out changes neither the bindings nor the
    listener, which goes on delivering key presses. *)
Lemma pyqt_timeout_keeps_capture_armed (c : PyQt.capture) (m : machine) :
  PyQt.capture_step PyQt.CapTimeout c m =
    (Ok (PyQt.mkCapture (PyQt.hotkey_type c) (PyQt.listener_alive c) true
           (PyQt.dialog_open c)), m).
Proof. reflexivity. Qed.

(** Tkinter: the [join] timing out stops the listener and leaves the
    application object, bindings and configuration included, as it was;
    a later key press does nothing. *)
Lemma tk_timeout_disarms_capture (c : TkV2.capture) (m : machine) (later : pyval) :
  let r := TkV2.capture_run [TkV2.CapTimeout; TkV2.CapKey later] c m in
  (exists c', fst r = Ok c' /\ TkV2.listener_alive c' = false) /\
  self (snd r) = self m.
Proof.
  destruct c as [act [|]]; simpl; split; eauto.
Qed.

End CaptureFacts.

(** C8: in the PyQt version the 15 seconds of [listener_obj.join] running
    out end only the helper thread: the capture for the Start slot is
    still armed (the listener alive, the dialog open), the binding is so
    far unchanged, and a key pressed afterwards is taken as the new Start
    hotkey, in memory and in the configuration.  In the Tkinter version
    the same events leave the capture disarmed and the binding as it
    was. *)
Theorem C8_pyqt_capture_armed_after_timeout :
  let m := PyQt.init example_app [] in
  let c := PyQt._capture_hotkey_rebind "start" in
  PyQt.capture_run [PyQt.CapTimeout] c m =
    (Ok (PyQt.mkCapture "start" true true true), m) /\
  (let r := PyQt.capture_run [PyQt.CapTimeout; PyQt.CapKey (KeyCode "a")] c m in
   key_start (self m) = Key "f1" /\
   config (self m) !! "key_start" = Some (JStr "f1") /\
   key_start (self (snd r)) = KeyCode "a" /\
   config (self (snd r)) !! "key_start" = Some (JStr "a")) /\
  (let r := TkV2.capture_run [TkV2.CapTimeout; TkV2.CapKey (KeyCode "a")]
              (TkV2._capture_key "start") m in
   fst r = Ok (TkV2.mkCapture "start" false) /\
   key_start (self (snd r)) = Key "f1" /\
   config (self (snd r)) !! "key_start" = Some (JStr "f1")).
Proof. vm_compute. repeat split. Qed.

(** Rebinding Start to the character key [a]: the Tkinter capture stores
    the name through [_key_to_string] and writes ["f1"]; the PyQt capture
    takes the name from [str(key)] and writes ["a"]. *)
Lemma rebind_to_character_key :
  let m := PyQt.init example_app [] in
  config (self (snd (TkV2.on_press "start" (KeyCode "a") m))) !! "key_start"
    = Some (JStr "f1") /\
  key_start (self (snd (TkV2.on_press "start" (KeyCode "a") m))) = KeyCode "a" /\
  config (self (snd (PyQt.on_press "start" (KeyCode "a") m))) !! "key_start"
    = Some (JStr "a").
Proof. vm_compute. repeat split. Qed.

(** ** The Tkinter dispatcher and capture behave as the PyQt ones *)

Section TkV2Facts.
Import TkV2.

Lemma tk_start_always_spawns (key : pyval) (m : machine) (x y : Z) :
  KeyNormalizer._normalize_key key = KeyNormalizer._normalize_key (key_start (self m)) ->
  saved_x (self m) = Some x ->
  saved_y (self m) = Some y ->
  _on_key_press key m =
    (Ok tt,
     mkMachine (set_is_paused false (set_is_running true (self m)))
       (out m ++ [Status "Executando..." "success"; ThreadStart])
       (faults m) (threads m ++ [Created])).
Proof.
  intros Hk Hx Hy.
  rewrite !normalize_key_ok in Hk. injection Hk as Hk. apply String.eqb_eq in Hk.
  apply wp_eq. unfold _on_key_press. wp_run'. rewrite <- !app_assoc. auto.
Qed.

Lemma tk_start_without_coordinate_warns (key : pyval) (m : machine) :
  KeyNormalizer._normalize_key key = KeyNormalizer._normalize_key (key_start (self m)) ->
  saved_x (self m) = None \/ saved_y (self m) = None ->
  _on_key_press key m =
    (Ok tt,
     mkMachine (self m)
       (out m ++ [MessageBox "warning" "Aviso" "Por favor, capture uma coordenada primeiro!"])
       (faults m) (threads m)).
Proof.
  intros Hk Hnone.
  rewrite !normalize_key_ok in Hk. injection Hk as Hk. apply String.eqb_eq in Hk.
  apply wp_eq. unfold _on_key_press.
  destruct Hnone as [H|H]; wp_run'; auto.
Qed.

End TkV2Facts.


(* ===================================================================== *)
(** * Further properties of the code                                     *)
(* ===================================================================== *)

(** ** ConfigManager *)

Section ConfigFacts.
Import ConfigManager.

Lemma load_config_has_defaults (f : file_state) (k : string) :
  is_Some (default_config !! k) -> is_Some (load_config f !! k).
Proof.
  intros Hk. destruct f as [| |c]; simpl; try exact Hk.
  rewrite lookup_union. destruct (c !! k), (default_config !! k); simpl; eauto.
Qed.

Lemma load_config_full (config : gmap string jval) :
  (forall k, is_Some (default_config !! k) -> is_Some (config !! k)) ->
  load_config (Stored config) = config.
Proof.
  intros H. simpl. apply map_eq. intros k. rewrite lookup_union.
  destruct (config !! k) eqn:E; simpl.
  - now destruct (default_config !! k).
  - destruct (default_config !! k) eqn:D; [|reflexivity].
    destruct (H k) as [v Hv]; [eauto|]. congruence.
Qed.

Lemma config_sets_keeps_keys (kvs : list (string * jval)) (config : gmap string jval)
    (k : string) :
  is_Some (config !! k) -> is_Some (config_sets kvs config !! k).
Proof.
  revert config. induction kvs as [|[k' v'] kvs IH]; intros config H; simpl; [exact H|].
  apply IH. unfold set_entry. simpl.
  destruct (decide (k' = k)) as [->|Hne].
  - rewrite lookup_insert_eq. eauto.
  - now rewrite lookup_insert_ne.
Qed.

End ConfigFacts.

(** X1: whatever the file is, every default setting is present after
    [load_config]; a stored entry wins over the default of its key, a
    missing one falls back to it, a stored entry the defaults do not know
    is kept, and a missing or unreadable file gives the defaults. *)
Theorem load_config_merges_over_defaults
    (f : ConfigManager.file_state) (config : gmap string jval) (k : string) :
  dom default_config ⊆ dom (ConfigManager.load_config f) /\
  ConfigManager.load_config (ConfigManager.Stored config) !! k =
    match config !! k with
    | Some v => Some v
    | None => default_config !! k
    end /\
  ConfigManager.load_config ConfigManager.Absent = default_config /\
  ConfigManager.load_config ConfigManager.Unreadable = default_config.
Proof.
  split; [|split; [|split; reflexivity]].
  - intros k' Hk. apply elem_of_dom. apply load_config_has_defaults.
    now apply elem_of_dom.
  - simpl. rewrite lookup_union.
    destruct (config !! k), (default_config !! k); reflexivity.
Qed.

(** X2: a configuration that was loaded, changed by any number of [set]
    and written out is read back as it was: the stored file of a session
    reloads to the very settings of that session. *)
Theorem load_config_round_trip
    (f : ConfigManager.file_state) (kvs : list (string * jval)) :
  let config := config_sets kvs (ConfigManager.load_config f) in
  ConfigManager.load_config (ConfigManager.Stored config) = config.
Proof.
  intros config. apply load_config_full. intros k Hk.
  apply config_sets_keeps_keys, load_config_has_defaults, Hk.
Qed.

(** ** Key normaliser, continued *)

Section StripFacts.
Import PyStr.

Lemma is_space_lower (c : ascii) : is_space (lower_ascii c) = is_space c.
Proof. destruct c as [[] [] [] [] [] [] [] []]; reflexivity. Qed.

Lemma lower_lstrip (s : string) : lower (lstrip s) = lstrip (lower s).
Proof.
  induction s as [|c s IH]; [reflexivity|].
  unfold lower in *. simpl. rewrite is_space_lower.
  destruct (is_space c); [exact IH|reflexivity].
Qed.

Lemma lower_rstrip (s : string) : lower (rstrip s) = rstrip (lower s).
Proof.
  induction s as [|c s IH]; [reflexivity|].
  unfold lower in *. simpl. rewrite <- IH, is_space_lower.
  destruct (rstrip s); simpl; [destruct (is_space c)|]; reflexivity.
Qed.

Lemma lower_strip (s : string) : lower (strip s) = strip (lower s).
Proof. unfold strip. now rewrite lower_rstrip, lower_lstrip. Qed.

(** What [lstrip] leaves is empty or starts with a character that is not
    white space. *)
Lemma lstrip_head (s : string) :
  lstrip s = EmptyString \/
  exists c s', lstrip s = String c s' /\ is_space c = false.
Proof.
  induction s as [|c s IH]; simpl; [now left|].
  destruct (is_space c) eqn:E; [exact IH|]. right. eauto.
Qed.

Lemma rstrip_idem (s : string) : rstrip (rstrip s) = rstrip s.
Proof.
  induction s as [|c s IH]; [reflexivity|]. simpl.
  destruct (rstrip s) as [|d r] eqn:E.
  - destruct (is_space c) eqn:Ec; simpl; [reflexivity|]. now rewrite Ec.
  - simpl in *. now rewrite IH.
Qed.

Lemma lstrip_rstrip_head (c : ascii) (s : string) :
  is_space c = false -> lstrip (rstrip (String c s)) = rstrip (String c s).
Proof.
  intros Ec. simpl. destruct (rstrip s); rewrite ?Ec; simpl; rewrite ?Ec; reflexivity.
Qed.

Lemma strip_idem (s : string) : strip (strip s) = strip s.
Proof.
  unfold strip. destruct (lstrip_head s) as [E|(c & s' & E & Ec)]; rewrite E.
  - reflexivity.
  - rewrite lstrip_rstrip_head by exact Ec. apply rstrip_idem.
Qed.

(** Cleaning a name twice is cleaning it once. *)
Lemma clean_idem (s : string) :
  strip (lower (strip (lower s))) = strip (lower s).
Proof. now rewrite <- lower_strip, strip_idem, lower_strip, lower_idem. Qed.

End StripFacts.

Section TokenFacts.
Import KeyNormalizer.

(** The names of the key table stay as they are under the cleaning of
    [_string_to_key]. *)
Lemma Key_names_clean (n : string) :
  n ∈ Key_names -> PyStr.strip (PyStr.lower n) = n.
Proof.
  intros H.
  assert (Hall : Forall (fun k => PyStr.strip (PyStr.lower k) = k) Key_names).
  { unfold Key_names. repeat (constructor; [reflexivity|]). constructor. }
  rewrite Forall_forall in Hall. now apply Hall.
Qed.

(** [_string_to_key] on a string, by its cleaned form. *)
Lemma string_to_key_cases (s : string) :
  let c := PyStr.strip (PyStr.lower s) in
  _string_to_key (PStr s) =
    if bool_decide (c ∈ Key_names) then Key c
    else if Nat.eqb (String.length c) 1 then PStr c
    else Key "f1".
Proof.
  intros c. unfold _string_to_key. simpl. fold c. unfold getattr_Key.
  destruct (bool_decide (c ∈ Key_names)); simpl; [reflexivity|].
  destruct (Nat.eqb (String.length c) 1); reflexivity.
Qed.

Lemma string_to_key_named (n : string) :
  n ∈ Key_names -> _string_to_key (PStr n) = Key n.
Proof.
  intros H. rewrite string_to_key_cases. cbv zeta.
  rewrite (Key_names_clean n H). now rewrite bool_decide_eq_true_2.
Qed.

Lemma f1_in_Key_names : "f1" ∈ Key_names.
Proof. unfold Key_names. set_solver. Qed.

End TokenFacts.

(** Over the member lookup [getattr_Key], what [_string_to_key] answers is
    a member of the table or a one-character string. *)
Lemma string_to_key_usable (v : pyval) :
  usable_token (KeyNormalizer._string_to_key v).
Proof.
  destruct v as [s|a r].
  - rewrite string_to_key_cases. cbv zeta.
    destruct (bool_decide (PyStr.strip (PyStr.lower s) ∈ Key_names)) eqn:E.
    + left. eexists. split; [|reflexivity]. now apply bool_decide_eq_true in E.
    + destruct (Nat.eqb (String.length (PyStr.strip (PyStr.lower s))) 1) eqn:L.
      * right. eexists. split; [|reflexivity]. now apply Nat.eqb_eq.
      * left. exists "f1". split; [apply f1_in_Key_names|reflexivity].
  - left. exists "f1". split; [apply f1_in_Key_names|reflexivity].
Qed.

(** X4: [_string_to_key] reads a stored name up to letter case and
    surrounding white space: a name and its cleaned form (lower case,
    stripped) give the same token. *)
Theorem string_to_key_ignores_case_and_space (s : string) :
  KeyNormalizer._string_to_key (PStr s) =
  KeyNormalizer._string_to_key (PStr (PyStr.strip (PyStr.lower s))).
Proof.
  rewrite (string_to_key_cases s), (string_to_key_cases (PyStr.strip (PyStr.lower s))).
  cbv zeta. now rewrite clean_idem.
Qed.

(** ** Rebinding a hotkey and starting again *)

Section RebindFacts.
Import KeyNormalizer.

Lemma pressed_key_name_named (n : string) :
  n ∈ Key_names -> PyQt.pressed_key_name (Key n) = Ok n.
Proof.
  intros H. destruct (Key_names_canonical n H) as [_ Hu].
  unfold PyQt.pressed_key_name. simpl. now rewrite Hu.
Qed.

Lemma key_to_string_named (n : string) :
  n ∈ Key_names -> _key_to_string (Key n) = n.
Proof.
  intros H. destruct (Key_names_canonical n H) as [Hl Hu].
  unfold _key_to_string. simpl. now rewrite Hl, Hu.
Qed.

(** A hotkey entry that is stored is read through [_string_to_key]
    after the merge with the defaults. *)
Lemma load_hotkey_stored (config : gmap string jval) (k s d : string) :
  config !! k = Some (JStr s) ->
  Startup.load_hotkey (ConfigManager.load_config (ConfigManager.Stored config)) k d =
  _string_to_key (PStr s).
Proof.
  intros H. unfold Startup.load_hotkey, ConfigManager.get. simpl.
  rewrite lookup_union, H. now destruct (default_config !! k).
Qed.

Lemma pyqt_rebind_named (slot n d : string) (m : machine) :
  is_slot slot -> n ∈ Key_names ->
  wp (PyQt.on_press slot (Key n))
     (fun _ m' =>
        binding slot (self m') = Key n /\
        Startup.load_hotkey
          (ConfigManager.load_config (ConfigManager.Stored (config (self m'))))
          (slot_entry slot) d = Key n) m.
Proof.
  intros Hs Hn. destruct (Key_names_canonical n Hn) as [Hl _].
  destruct Hs as [-> | [-> | ->]]; unfold PyQt.on_press;
    wp_step'; wp_step'; wp_step'; rewrite (pressed_key_name_named n Hn);
    cbn [String.eqb Ascii.eqb Bool.eqb]; wp_run';
    (split; [reflexivity|]);
    erewrite load_hotkey_stored by (simpl; apply lookup_insert_eq);
    rewrite Hl; now apply string_to_key_named.
Qed.

Lemma tk_rebind_named (slot n d : string) (m : machine) :
  is_slot slot -> n ∈ Key_names ->
  wp (TkV2.on_press slot (Key n))
     (fun _ m' =>
        binding slot (self m') = Key n /\
        Startup.load_hotkey
          (ConfigManager.load_config (ConfigManager.Stored (config (self m'))))
          (slot_entry slot) d = Key n) m.
Proof.
  intros Hs Hn.
  destruct Hs as [-> | [-> | ->]]; unfold TkV2.on_press;
    cbn [String.eqb Ascii.eqb Bool.eqb]; wp_run';
    (split; [reflexivity|]);
    erewrite load_hotkey_stored by (simpl; apply lookup_insert_eq);
    rewrite (key_to_string_named n Hn); now apply string_to_key_named.
Qed.

End RebindFacts.

(** X5: a hotkey slot rebound to a named key (a member of the key table)
    is bound to that key at once, and the name written to the
    configuration gives the same key back when the application starts
    again; in the PyQt capture and in the Tkinter capture alike. *)
Theorem named_hotkey_survives_restart (slot n d : string) (m : machine) :
  is_slot slot ->
  n ∈ Key_names ->
  let reload (m' : machine) :=
    Startup.load_hotkey
      (ConfigManager.load_config (ConfigManager.Stored (config (self m'))))
      (slot_entry slot) d in
  let mq := snd (PyQt.on_press slot (Key n) m) in
  let mt := snd (TkV2.on_press slot (Key n) m) in
  binding slot (self mq) = Key n /\ reload mq = Key n /\
  binding slot (self mt) = Key n /\ reload mt = Key n.
Proof.
  intros Hs Hn reload mq mt.
  pose proof (pyqt_rebind_named slot n d m Hs Hn) as [H1 H2].
  pose proof (tk_rebind_named slot n d m Hs Hn) as [H3 H4].
  auto.
Qed.

(** X5 at the Pause slot rebound to F9. *)
Lemma named_hotkey_survives_restart_witness :
  let m := PyQt.init example_app [] in
  let reload (m' : machine) :=
    Startup.load_hotkey
      (ConfigManager.load_config (ConfigManager.Stored (config (self m'))))
      (slot_entry "pause") "f2" in
  let mq := snd (PyQt.on_press "pause" (Key "f9") m) in
  let mt := snd (TkV2.on_press "pause" (Key "f9") m) in
  binding "pause" (self mq) = Key "f9" /\ reload mq = Key "f9" /\
  binding "pause" (self mt) = Key "f9" /\ reload mt = Key "f9".
Proof.
  intros m.
  apply (named_hotkey_survives_restart "pause" "f9" "f2" m).
  - right. left. reflexivity.
  - unfold Key_names. set_solver.
Defined.

Section CharacterKeyFacts.
Import KeyNormalizer.

Lemma plain_char_inv (c : string) :
  plain_char c = true ->
  exists ch, c = String ch EmptyString /\ Ascii.eqb ch PyStr.quote = false.
Proof.
  destruct c as [|ch [|]]; try discriminate. intros H.
  exists ch. split; [reflexivity|].
  destruct ch as [[] [] [] [] [] [] [] []]; try reflexivity; vm_compute in H; discriminate.
Qed.

Lemma Key_names_no_quote (n x : string) :
  n ∈ Key_names -> n <> String PyStr.quote x.
Proof.
  intros H.
  assert (Hall : Forall (fun k => forall y, k <> String PyStr.quote y) Key_names).
  { unfold Key_names. repeat (constructor; [discriminate|]). constructor. }
  rewrite Forall_forall in Hall. now apply Hall.
Qed.

Lemma lstrip_underscore_id (s : string) :
  PyStr.startswith_underscore s = false -> PyStr.lstrip_underscore s = s.
Proof. destruct s as [|c s]; simpl; [reflexivity|]. now intros ->. Qed.

Lemma normalized_named (n : string) :
  n ∈ Key_names -> normalized (Key n) = n.
Proof.
  intros H. destruct (Key_names_canonical n H) as [Hl Hu].
  simpl. rewrite Hl. now apply lstrip_underscore_id.
Qed.

(** The comparable form of a usable token never starts with a quote
    followed by two more characters. *)
Lemma normalized_usable_not_quoted (k : pyval) (x y : ascii) :
  usable_token k ->
  normalized k <> String PyStr.quote (String x (String y EmptyString)).
Proof.
  intros [(n & Hn & ->)|(c & Hc & ->)].
  - rewrite (normalized_named n Hn). now apply Key_names_no_quote.
  - destruct c as [|ch [|]]; try discriminate.
Qed.

Lemma pyqt_rebind_char (ch : ascii) (m : machine) :
  Ascii.eqb ch PyStr.quote = false ->
  wp (PyQt.on_press "start" (KeyCode (String ch EmptyString)))
     (fun _ m' =>
        key_start (self m') = KeyCode (String ch EmptyString) /\
        config (self m') !! "key_start" =
          Some (JStr (PyStr.lower (String ch EmptyString)))) m.
Proof.
  intros Hq.
  assert (Hname : PyQt.pressed_key_name (KeyCode (String ch EmptyString)) =
                  Ok (String ch EmptyString)).
  { unfold PyQt.pressed_key_name. simpl. now rewrite Hq. }
  unfold PyQt.on_press. wp_step'. wp_step'. wp_step'. rewrite Hname.
  cbn [String.eqb Ascii.eqb Bool.eqb]. wp_run'.
  split; [reflexivity|]. simpl. apply lookup_insert_eq.
Qed.

End CharacterKeyFacts.

(** X6: the Start hotkey rebound in the PyQt version to a character key
    (a [KeyCode]) matches that key for the rest of the session, since the
    binding is the key object itself.  The name written to the
    configuration is the bare character, and the token read back from it
    at the next start never compares equal to the key: the listener's
    key normalises to the character between quotes, the reloaded token
    does not. *)
Theorem character_hotkey_lost_on_restart (c d : string) (m : machine) :
  plain_char c = true ->
  let m' := snd (PyQt.on_press "start" (KeyCode c) m) in
  let reloaded :=
    Startup.load_hotkey
      (ConfigManager.load_config (ConfigManager.Stored (config (self m'))))
      "key_start" d in
  KeyNormalizer._normalize_key (KeyCode c) =
    KeyNormalizer._normalize_key (key_start (self m')) /\
  config (self m') !! "key_start" = Some (JStr (PyStr.lower c)) /\
  KeyNormalizer._normalize_key (KeyCode c) <>
    KeyNormalizer._normalize_key reloaded.
Proof.
  intros Hc m' reloaded.
  destruct (plain_char_inv c Hc) as (ch & -> & Hq).
  pose proof (pyqt_rebind_char ch m Hq) as [Hk Hcfg].
  fold m' in Hk, Hcfg.
  split; [now rewrite Hk|]. split; [exact Hcfg|].
  subst reloaded. rewrite (load_hotkey_stored _ _ _ d Hcfg), !normalize_key_ok.
  intros E. injection E as E. symmetry in E. revert E.
  apply normalized_usable_not_quoted, string_to_key_usable.
Qed.

(** X6 at the key [a]. *)
Lemma character_hotkey_lost_on_restart_witness :
  let m := PyQt.init example_app [] in
  let m' := snd (PyQt.on_press "start" (KeyCode "a") m) in
  let reloaded :=
    Startup.load_hotkey
      (ConfigManager.load_config (ConfigManager.Stored (config (self m'))))
      "key_start" "f1" in
  KeyNormalizer._normalize_key (KeyCode "a") =
    KeyNormalizer._normalize_key (key_start (self m')) /\
  config (self m') !! "key_start" = Some (JStr (PyStr.lower "a")) /\
  KeyNormalizer._normalize_key (KeyCode "a") <>
    KeyNormalizer._normalize_key reloaded.
Proof.
  intros m.
  apply (character_hotkey_lost_on_restart "a" "f1" m). reflexivity.
Defined.

(** ** The hotkey dispatcher, continued *)

(** From a [wp] fact to the result and the machine it speaks of. *)
Lemma wp_elim {A} (c : M A) (Q : res A -> machine -> Prop) (m : machine) :
  wp c Q m -> exists r m', c m = (r, m') /\ Q r m'.
Proof. unfold wp. destruct (c m) as [r m']. eauto. Qed.

Section DispatcherMore.
Import PyQt KeyNormalizer.

Lemma normalize_eqb (k1 k2 : pyval) :
  String.eqb (normalized k1) (normalized k2) = true <->
  _normalize_key k1 = _normalize_key k2.
Proof.
  rewrite !normalize_key_ok, String.eqb_eq. split; [now intros ->|].
  now intros [= ->].
Qed.

Lemma normalize_neqb (k1 k2 : pyval) :
  String.eqb (normalized k1) (normalized k2) = false <->
  _normalize_key k1 <> _normalize_key k2.
Proof.
  rewrite <- normalize_eqb. destruct (String.eqb _ _); split; congruence.
Qed.

Lemma self_same_but_flags (a : app) : same_but_flags a a.
Proof. now destruct a. Qed.


End DispatcherMore.





(** X9: a key that matches none of the three bindings does nothing at
    all: no flag, no setting, no output, no thread. *)
Theorem unbound_key_is_ignored (key : pyval) (m : machine) :
  KeyNormalizer._normalize_key key <> KeyNormalizer._normalize_key (key_start (self m)) ->
  KeyNormalizer._normalize_key key <> KeyNormalizer._normalize_key (key_pause (self m)) ->
  KeyNormalizer._normalize_key key <> KeyNormalizer._normalize_key (key_exit (self m)) ->
  PyQt._on_key_press key m = (Ok tt, m).
Proof.
  intros Hs Hp He. apply normalize_neqb in Hs, Hp, He.
  apply wp_eq. unfold PyQt._on_key_press. wp_run'. auto.
Qed.

(** X9 at the key [a] under the default bindings. *)
Lemma unbound_key_is_ignored_witness :
  PyQt._on_key_press (KeyCode "a") running_once = (Ok tt, running_once).
Proof.
  apply (unbound_key_is_ignored (KeyCode "a") running_once); discriminate.
Defined.

(** X10: whatever key is pressed, the dispatcher returns without an
    exception and writes nothing of the application object but the two
    flags: coordinates, timing, bindings, custom key and configuration
    are as before, and what was output so far stays. *)
Theorem dispatcher_writes_only_flags (key : pyval) (m : machine) :
  let r := PyQt._on_key_press key m in
  fst r = Ok tt /\
  same_but_flags (self m) (self (snd r)) /\
  exists evs, out (snd r) = out m ++ evs.
Proof.
  change (wp (PyQt._on_key_press key)
            (fun r m' => r = Ok tt /\ same_but_flags (self m) (self m') /\
                         exists evs, out m' = out m ++ evs) m).
  unfold PyQt._on_key_press. wp_run';
    (split; [reflexivity|]);
    (split; [try apply self_same_but_flags; reflexivity|]);
    rewrite <- ?app_assoc; eauto.
  all: exists []; now rewrite app_nil_r.
Qed.

(** ** The execution loop, continued *)

Section LoopMore.

(** A call that is known to return. *)
Lemma wp_dev_next (op : dev_op) (Q : res unit -> machine -> Prop) (m : machine) :
  next_call_returns m = true ->
  (forall fs, Q (Ok tt) (mkMachine (self m) (out m ++ [Dev op true]) fs (threads m))) ->
  wp (Eff.dev op) Q m.
Proof.
  unfold next_call_returns, wp, Eff.dev. intros Hn H.
  destruct (faults m) as [|[msg|] fs]; simpl; [apply H|discriminate|apply H].
Qed.

End LoopMore.

(** Symbolic execution up to the next call on the capability. *)
Ltac wp_to_dev :=
  repeat (lazymatch goal with
          | |- wp (Eff.dev _) _ _ => fail
          | |- _ => wp_step'
          end).

Ltac wp_step_tk :=
  lazymatch goal with
  | |- wp TkV2._release_all _ _ => unfold TkV2._release_all
  | |- wp TkV2.loop_exit _ _ => unfold TkV2.loop_exit
  | |- wp (TkV2.loop_except _) _ _ => unfold TkV2.loop_except
  | |- wp (TkV2._perform_action _ _) _ _ => unfold TkV2._perform_action
  | |- wp (TkV2._perform_keyboard_action _ _) _ _ => unfold TkV2._perform_keyboard_action
  | |- wp (TkV2.loop_body _ _) _ _ => unfold TkV2.loop_body
  | |- wp TkV2.loop_prelude _ _ => unfold TkV2.loop_prelude
  | |- wp TkV2Settings._update_hotkey_display _ _ =>
      unfold TkV2Settings._update_hotkey_display
  | |- wp TkV2Settings._reset_keybinds _ _ => unfold TkV2Settings._reset_keybinds
  | |- _ => wp_step'
  end; cbv beta iota; cbn [self out faults threads fst snd].

Ltac wp_run_tk := repeat wp_step_tk.

(** Closing a goal that asks for the events appended to a trace. *)
Ltac appended :=
  rewrite <- ?app_assoc;
  first [ eexists; split; [reflexivity|]
        | exists []; split; [now rewrite app_nil_r|] ].




(** X13: an input action that fails does not end the loop.  With a mouse
    button selected, the pointer move returning and the closing sleep not
    negative, a thread at the test with [is_running] set comes back to the
    test, whatever the click, press or release answer and whatever the
    hold duration is; the application object is not written. *)
Theorem iteration_survives_failing_action (x y : string) (m : machine) :
  is_running (self m) = true ->
  mouse_selected (button_type (self m)) = true ->
  next_call_returns m = true ->
  (0 <= end_sleep (action_type (self m)) (self m))%Z ->
  exists evs fs,
    PyQt._execute_macro (Looping x y) m =
      (Ok (Looping x y), mkMachine (self m) (out m ++ evs) fs (threads m)).
Proof.
  intros Hrun Hmouse Hnext Hsleep. unfold mouse_selected in Hmouse.
  unfold end_sleep in Hsleep.
  assert (H : wp (PyQt._execute_macro (Looping x y))
                (fun r m' => exists evs fs,
                     r = Ok (Looping x y) /\
                     m' = mkMachine (self m) (out m ++ evs) fs (threads m)) m).
  { unfold PyQt._execute_macro. wp_to_dev.
    apply wp_dev_next; [exact Hnext|]. intros fs0.
    cbv beta iota; cbn [self out faults threads].
    destruct (String.eqb (action_type (self m)) "click") eqn:Eact;
      wp_run'; rewrite <- ?app_assoc; eauto; exfalso;
      first [ lia
            | match goal with
              | H1 : String.eqb (button_type (self m)) "esquerdo" = false,
                H2 : String.eqb (button_type (self m)) "direito" = false |- _ =>
                  rewrite H1, H2 in Hmouse; discriminate
              end ]. }
  apply wp_elim in H as (r & m' & E & evs & fs & -> & ->). eauto.
Qed.

(** X13 with the click itself raising. *)
Lemma iteration_survives_failing_action_witness :
  let m := mkMachine (set_action_type "click" (set_is_running true example_app))
             [] [None; Some "device busy"] [Looping "" ""] in
  exists evs fs,
    PyQt._execute_macro (Looping "" "") m =
      (Ok (Looping "" ""), mkMachine (self m) (out m ++ evs) fs (threads m)).
Proof.
  intros m.
  apply (iteration_survives_failing_action "" "" m); try reflexivity.
  subst m. unfold end_sleep. simpl. lia.
Defined.

Section PauseStopsLoop.
Import PyQt.


End PauseStopsLoop.



(** X15: in the Tkinter version the pointer is positioned before the
    loop and never again.  The slice of a new thread that runs up to the
    loop starts, when a mouse button is selected, with one move of the
    pointer to the stored coordinate and makes no other; with the custom
    key selected it makes none.  A slice of a thread at the test,
    whatever it does and however it ends, makes no pointer move. *)
Theorem tk_loop_never_moves_pointer (act btn : string) (m : machine) :
  (exists evs,
      out (snd (TkV2._execute_macro Created m)) = out m ++ evs /\
      if mouse_selected (button_type (self m)) then
        exists returned evs',
          evs = Dev (SetPosition (saved_x (self m)) (saved_y (self m))) returned :: evs' /\
          count is_move evs' = 0
      else count is_move evs = 0) /\
  (exists evs,
      out (snd (TkV2._execute_macro (Looping act btn) m)) = out m ++ evs /\
      count is_move evs = 0).
Proof.
  split.
  - change (wp (TkV2._execute_macro Created)
              (fun _ m' =>
                 exists evs,
                   out m' = out m ++ evs /\
                   if mouse_selected (button_type (self m)) then
                     exists returned evs',
                       evs = Dev (SetPosition (saved_x (self m)) (saved_y (self m))) returned
                               :: evs' /\
                       count is_move evs' = 0
                   else count is_move evs = 0) m).
    unfold TkV2._execute_macro, mouse_selected.
    destruct (String.eqb (button_type (self m)) "esquerdo"
              || String.eqb (button_type (self m)) "direito") eqn:Hb;
      wp_run_tk; rewrite ?Hb; wp_run_tk; appended; eauto.
  - change (wp (TkV2._execute_macro (Looping act btn))
              (fun _ m' => exists evs, out m' = out m ++ evs /\ count is_move evs = 0) m).
    unfold TkV2._execute_macro. wp_run_tk; appended; reflexivity.
Qed.

(** ** Hotkey capture, continued *)

Section CaptureMore.
Import PyQt.

(** [on_press] returns [False] on every path. *)
Lemma on_press_returns_false (slot : string) (key : pyval) (m : machine) :
  fst (on_press slot key m) = Ok false.
Proof.
  change (wp (on_press slot key) (fun r _ => r = Ok false) m).
  unfold on_press. wp_run'; reflexivity.
Qed.

Lemma capture_run_cons (i : capture_input) (ins : list capture_input)
    (c : capture) (m : machine) :
  capture_run (i :: ins) c m =
    match capture_step i c m with
    | (Ok c', m') => capture_run ins c' m'
    | (Raise e, m') => (Raise e, m')
    end.
Proof. reflexivity. Qed.

(** Once the listener is stopped nothing of a capture reaches the
    application object: all that is left to happen is the rewriting of
    [info_label] when the dialog, if still open, is closed. *)
Lemma capture_run_stopped (ins : list capture_input) (c : capture) (m : machine) :
  listener_alive c = false ->
  exists c',
    capture_run ins c m =
      (Ok c',
       mkMachine (self m)
         (out m ++ if dialog_open c && existsb is_dialog_closed ins
                   then [KeyDisplay "info" (info_text (self m))] else [])
         (faults m) (threads m)) /\
    listener_alive c' = false.
Proof.
  revert c m. induction ins as [|i ins IH]; intros c m Hc.
  - exists c. split; [|exact Hc]. simpl. rewrite andb_false_r, app_nil_r.
    now destruct m.
  - rewrite capture_run_cons. destruct i as [key| |].
    + simpl. rewrite Hc. simpl. now apply IH.
    + simpl.
      destruct (IH (mkCapture (hotkey_type c) (listener_alive c) true (dialog_open c)) m Hc)
        as (c' & E & Hc').
      exists c'. split; [exact E|exact Hc'].
    + simpl. destruct (dialog_open c) eqn:Hd.
      * unfold Eff.bind, Eff.get, Eff.emit, Eff.ret. simpl.
        match goal with |- context [capture_run ins ?c1 ?m1] =>
          destruct (IH c1 m1 eq_refl) as (c' & E & Hc')
        end.
        exists c'. split; [|exact Hc']. rewrite E. simpl.
        now rewrite app_nil_r.
      * simpl. destruct (IH c m Hc) as (c' & E & Hc').
        exists c'. split; [|exact Hc']. rewrite E, Hd. reflexivity.
Qed.

End CaptureMore.

(** X16: a hotkey capture is one-shot.  The first key press that reaches
    it is the one bound and it stops the listener.  Whatever comes after,
    more key presses, the time-out or the dialog closing, binds nothing
    and writes nothing of the application object: the machine is the one
    [on_press] left, but for [info_label], which the closing of the
    dialog rewrites once from the bindings [on_press] left. *)
Theorem capture_takes_first_key_only
    (slot : string) (key : pyval) (rest : list PyQt.capture_input) (m : machine) :
  let r := PyQt.capture_run (PyQt.CapKey key :: rest) (PyQt._capture_hotkey_rebind slot) m in
  let m1 := snd (PyQt.on_press slot key m) in
  snd r =
    mkMachine (self m1)
      (out m1 ++ if existsb is_dialog_closed rest
                 then [KeyDisplay "info" (PyQt.info_text (self m1))] else [])
      (faults m1) (threads m1) /\
  exists c', fst r = Ok c' /\ PyQt.listener_alive c' = false.
Proof.
  cbv zeta.
  assert (E0 : PyQt.capture_run (PyQt.CapKey key :: rest) (PyQt._capture_hotkey_rebind slot) m =
               PyQt.capture_run rest (PyQt.mkCapture slot false false true)
                 (snd (PyQt.on_press slot key m))).
  { pose proof (on_press_returns_false slot key m) as Hf.
    simpl. unfold Eff.bind, Eff.ret.
    destruct (PyQt.on_press slot key m) as [r m1]. simpl in Hf. now subst r. }
  rewrite E0.
  destruct (capture_run_stopped rest (PyQt.mkCapture slot false false true)
              (snd (PyQt.on_press slot key m)) eq_refl) as (c' & E & Hc').
  rewrite E. simpl. eauto.
Qed.

Section RebindMore.
Import PyQt KeyNormalizer.

Lemma with_bindings_of_self (a : app) : with_bindings_of a a = a.
Proof. now destruct a. Qed.

(** The Start branch of the dispatcher, as an equation. *)
Lemma start_spawns_helper (key : pyval) (m : machine) (x y : Z) :
  _normalize_key key = _normalize_key (key_start (self m)) ->
  saved_x (self m) = Some x ->
  saved_y (self m) = Some y ->
  _on_key_press key m =
    (Ok tt,
     mkMachine (set_is_paused false (set_is_running true (self m)))
       (out m ++ [Status "Executando..." "success"; ThreadStart])
       (faults m) (threads m ++ [Created])).
Proof.
  intros Hk Hx Hy. apply normalize_eqb in Hk.
  apply wp_eq. unfold _on_key_press. wp_run'. rewrite <- !app_assoc. auto.
Qed.

(** The name of a pressed key is always found. *)
Lemma pressed_key_name_never_raises (key : pyval) (e : exn) :
  pressed_key_name key <> Raise e.
Proof. destruct key as [s|[|n|] r]; discriminate. Qed.

(** What a capture for the Start slot leaves: the key bound, the
    coordinate as it was. *)
Lemma on_press_start_frame (key : pyval) (m : machine) :
  wp (on_press "start" key)
     (fun _ m' => key_start (self m') = key /\
                  saved_x (self m') = saved_x (self m) /\
                  saved_y (self m') = saved_y (self m)) m.
Proof.
  unfold on_press. wp_step'. wp_step'. wp_step'.
  destruct (pressed_key_name key) as [name|e] eqn:E.
  - cbn [String.eqb Ascii.eqb Bool.eqb]. wp_run'. auto.
  - now apply pressed_key_name_never_raises in E.
Qed.

End RebindMore.

(** X17: a capture writes one hotkey and nothing else.  [on_press]
    returns [False] without an exception; the slot it was armed for gets
    the pressed key (Start before Pause before Exit, as the code tests
    them), the two other bindings are as they were, and but for the
    bindings and the configuration the application object is untouched;
    armed for a name that is no slot it binds nothing. *)
Theorem rebind_writes_one_slot (slot : string) (key : pyval) (m : machine) :
  let r := PyQt.on_press slot key m in
  let a' := self (snd r) in
  fst r = Ok false /\
  key_start a' = (if String.eqb slot "start" then key else key_start (self m)) /\
  key_pause a' = (if String.eqb slot "start" then key_pause (self m)
                  else if String.eqb slot "pause" then key else key_pause (self m)) /\
  key_exit a' = (if String.eqb slot "start" then key_exit (self m)
                 else if String.eqb slot "pause" then key_exit (self m)
                 else if String.eqb slot "exit" then key else key_exit (self m)) /\
  with_bindings_of (self m) a' = self m /\
  threads (snd r) = threads m.
Proof.
  change (wp (PyQt.on_press slot key)
            (fun r m' =>
               r = Ok false /\
               key_start (self m') =
                 (if String.eqb slot "start" then key else key_start (self m)) /\
               key_pause (self m') =
                 (if String.eqb slot "start" then key_pause (self m)
                  else if String.eqb slot "pause" then key else key_pause (self m)) /\
               key_exit (self m') =
                 (if String.eqb slot "start" then key_exit (self m)
                  else if String.eqb slot "pause" then key_exit (self m)
                  else if String.eqb slot "exit" then key else key_exit (self m)) /\
               with_bindings_of (self m) (self m') = self m /\
               threads m' = threads m) m).
  unfold PyQt.on_press. wp_run';
    try match goal with
      | H : PyQt.pressed_key_name _ = Raise _ |- _ =>
          now apply pressed_key_name_never_raises in H
      end;
    repeat match goal with H : String.eqb slot _ = _ |- _ => rewrite H; clear H end;
    repeat split; try reflexivity;
    unfold with_bindings_of; simpl; now destruct (self m).
Qed.

(** X18: a key captured for the Start slot starts the macro the next
    time it is pressed, whatever key object it is (a named key, a
    character, a key the listener does not know), provided a target
    coordinate is stored. *)
Theorem rebound_start_key_works_at_once (key : pyval) (m : machine) (x y : Z) :
  saved_x (self m) = Some x ->
  saved_y (self m) = Some y ->
  let m1 := snd (PyQt.on_press "start" key m) in
  PyQt._on_key_press key m1 =
    (Ok tt,
     mkMachine (set_is_paused false (set_is_running true (self m1)))
       (out m1 ++ [Status "Executando..." "success"; ThreadStart])
       (faults m1) (threads m1 ++ [Created])).
Proof.
  intros Hx Hy m1.
  destruct (on_press_start_frame key m) as (Hk & Hsx & Hsy). fold m1 in Hk, Hsx, Hsy.
  apply (start_spawns_helper key m1 x y); [now rewrite Hk|congruence|congruence].
Qed.

(** X18 at the key the listener reports as [None]. *)
Lemma rebound_start_key_works_at_once_witness :
  let m := PyQt.init example_app [] in
  let m1 := snd (PyQt.on_press "start" PNone m) in
  PyQt._on_key_press PNone m1 =
    (Ok tt,
     mkMachine (set_is_paused false (set_is_running true (self m1)))
       (out m1 ++ [Status "Executando..." "success"; ThreadStart])
       (faults m1) (threads m1 ++ [Created])).
Proof.
  intros m.
  apply (rebound_start_key_works_at_once PNone m 134 902); reflexivity.
Defined.

(** ** The settings, the configuration and the next start *)

(** Lookups in a configuration after the writes of a callback. *)
Ltac cfg_lookup :=
  cbn [config set_config set_is_running set_is_paused set_capture_mode set_saved_x
       set_saved_y set_action_type set_button_type set_click_delay_ms
       set_hold_duration_ms set_custom_key set_custom_key_name set_key_start
       set_key_pause set_key_exit set_checkedId
       saved_x saved_y action_type click_delay_ms hold_duration_ms custom_key_name];
  repeat first [ rewrite lookup_insert_eq
               | rewrite lookup_insert_ne by discriminate ].

Section SettingsFacts.
Import PyQt.

Ltac keeps_solve :=
  unfold keeps, settings_stored in *; cfg_lookup;
  repeat match goal with H : _ /\ _ |- _ => destruct H end;
  repeat split; simpl; cfg_lookup; auto.

Lemma execute_macro_keeps (t : tstate) (m : machine) :
  settings_stored (self m) ->
  wp (_execute_macro t)
     (fun _ m' => settings_stored (self m') /\
                  config (self m') !! "custom_key" = config (self m) !! "custom_key") m.
Proof.
  intros H. destruct t; unfold _execute_macro; wp_run'; keeps_solve.
Qed.

Lemma step_keeps (i : input) (m : machine) :
  settings_stored (self m) ->
  settings_stored (self (snd (step i m))) /\
  config (self (snd (step i m))) !! "custom_key" = config (self m) !! "custom_key".
Proof.
  intros H.
  change (wp (step i) (keeps m) m).
  destruct i; unfold step.
  - unfold _on_key_press. wp_run'; keeps_solve.
  - unfold _on_mouse_click. wp_run'; keeps_solve.
  - unfold _start_capture_mode. wp_run'; keeps_solve.
  - unfold _on_action_changed. wp_run'; keeps_solve.
  - unfold _on_timing_changed. wp_run'; keeps_solve.
  - wp_run'; keeps_solve.
  - unfold on_press. wp_run'; keeps_solve.
  - unfold on_press_custom_key. wp_run'; keeps_solve.
  - unfold closeEvent. wp_run'; keeps_solve.
  - unfold wp, run_thread.
    destruct (threads m !! tid) as [t|]; [|unfold keeps; auto].
    pose proof (execute_macro_keeps t m H) as Hk. unfold wp in Hk.
    destruct (_execute_macro t m) as [[t'|e] m']; exact Hk.
Qed.

Lemma run_keeps (ins : list input) (m : machine) :
  settings_stored (self m) ->
  settings_stored (self (run ins m)) /\
  config (self (run ins m)) !! "custom_key" = config (self m) !! "custom_key".
Proof.
  revert m. induction ins as [|i ins IH]; intros m H; simpl; [auto|].
  destruct (step_keeps i m H) as [H1 H2].
  destruct (IH _ H1) as [H3 H4]. split; [exact H3|congruence].
Qed.

End SettingsFacts.

Section StartFacts.
Import ConfigManager Startup.

(** The application object [__init__] builds has its settings in the
    configuration it was built from, as soon as that one holds the
    default entries. *)
Lemma init_settings_stored (c : gmap string jval) (a : app) :
  (forall k, is_Some (default_config !! k) -> is_Some (c !! k)) ->
  __init__ c = Some a ->
  settings_stored a /\ config a = c /\
  is_running a = false /\ is_paused a = false /\ capture_mode a = false.
Proof.
  intros Hd Hi. unfold __init__, get in Hi.
  destruct (Hd "saved_x") as [v1 E1]; [vm_compute; eauto|].
  destruct (Hd "saved_y") as [v2 E2]; [vm_compute; eauto|].
  destruct (Hd "action_type") as [v3 E3]; [vm_compute; eauto|].
  destruct (Hd "button_type") as [v4 E4]; [vm_compute; eauto|].
  destruct (Hd "click_delay_ms") as [v5 E5]; [vm_compute; eauto|].
  destruct (Hd "hold_duration_ms") as [v6 E6]; [vm_compute; eauto|].
  destruct (Hd "custom_key_name") as [v7 E7]; [vm_compute; eauto|].
  rewrite E1, E2, E3, E4, E5, E6, E7 in Hi. cbn [default] in Hi.
  destruct v1; try discriminate Hi; cbn [as_opt_int mbind option_bind] in Hi;
  destruct v2; try discriminate Hi; cbn [as_opt_int mbind option_bind] in Hi;
  destruct v3; try discriminate Hi; cbn [as_str mbind option_bind] in Hi;
  destruct v4; try discriminate Hi; cbn [as_str mbind option_bind] in Hi;
  destruct v5; try discriminate Hi; cbn [as_int mbind option_bind] in Hi;
  destruct v6; try discriminate Hi; cbn [as_int mbind option_bind] in Hi;
  destruct (c !! "custom_key") as [[]|] eqn:E8; cbn [default as_opt_key mbind option_bind] in Hi;
  try discriminate Hi;
  destruct v7; try discriminate Hi; cbn [as_str mbind option_bind] in Hi;
  injection Hi as <-; unfold settings_stored; cbn;
  rewrite E1, E2, E3, E4, E5, E6, E7, E8; repeat split; reflexivity.
Qed.

Lemma start_settings_stored (f : file_state) (a : app) :
  start f = Some a ->
  settings_stored a /\ config a = load_config f /\
  is_running a = false /\ is_paused a = false /\ capture_mode a = false.
Proof.
  apply init_settings_stored. intros k. apply load_config_has_defaults.
Qed.

(** A start on a configuration that holds the settings of [a] succeeds
    and gives them back. *)
Lemma restart_restores (a : app) :
  settings_stored a ->
  exists a2,
    start (Stored (config a)) = Some a2 /\
    saved_x a2 = saved_x a /\ saved_y a2 = saved_y a /\
    action_type a2 = action_type a /\
    click_delay_ms a2 = click_delay_ms a /\
    hold_duration_ms a2 = hold_duration_ms a /\
    custom_key_name a2 = custom_key_name a /\
    Some (JStr (button_type a2)) = (config a ∪ default_config) !! "button_type" /\
    custom_key a2 =
      match config a !! "custom_key" with
      | Some (JStr s) => Some (PStr s)
      | _ => None
      end.
Proof.
  intros (H1 & H2 & H3 & H4 & H5 & H6 & H7 & H8).
  unfold start, __init__, get. cbn [load_config].
  rewrite !lookup_union, H1, H2, H3, H4, H5, H7.
  destruct (config a !! "button_type") as [[]|] eqn:E6; try discriminate H6;
  destruct (config a !! "custom_key") as [[]|] eqn:E8; try discriminate H8;
  destruct (saved_x a), (saved_y a); cbn; eexists; (split; [reflexivity|]); cbn;
  repeat split; reflexivity.
Qed.

Lemma start_absent : start Absent = Some fresh_app.
Proof. vm_compute. reflexivity. Qed.

End StartFacts.

Section RestartFacts.
Import ConfigManager Startup PyQt.

Lemma start_custom_key (f : file_state) (a : app) :
  start f = Some a ->
  custom_key a = None ->
  forall s, config a !! "custom_key" <> Some (JStr s).
Proof.
  intros Hi Hk s E. 
  destruct (start_settings_stored f a Hi) as (_ & Hc & _).
  rewrite Hc in E. unfold start, __init__, get in Hi. rewrite E in Hi.
  cbn [default as_opt_key] in Hi.
  repeat match type of Hi with
         | context [as_opt_int ?v] => destruct (as_opt_int v); cbn [mbind option_bind] in Hi;
                                      [|discriminate Hi]
         | context [as_str ?v] => destruct (as_str v); cbn [mbind option_bind] in Hi;
                                  [|discriminate Hi]
         | context [as_int ?v] => destruct (as_int v); cbn [mbind option_bind] in Hi;
                                  [|discriminate Hi]
         end.
  injection Hi as <-. discriminate Hk.
Qed.

Lemma init_stored (a : app) (fs : list (option string)) :
  settings_stored a -> settings_stored (self (init a fs)).
Proof. exact id. Qed.

Lemma custom_key_selected (key : pyval) (m : machine) :
  custom_key (self (snd (step (CustomKeySelected key) m))) = Some key.
Proof.
  change (wp (step (CustomKeySelected key))
            (fun _ m' => custom_key (self m') = Some key) m).
  unfold step, on_press_custom_key. wp_run'; try reflexivity.
  now apply pressed_key_name_never_raises in Heqr.
Qed.

Lemma close_event_button (m : machine) :
  config (self (snd (closeEvent m))) !! "button_type" = Some (JStr "esquerdo").
Proof.
  change (wp closeEvent
            (fun _ m' => config (self m') !! "button_type" = Some (JStr "esquerdo")) m).
  unfold closeEvent. wp_run'. cbn. apply lookup_insert_eq.
Qed.

End RestartFacts.

(** X19: from the start of the PyQt application on, whatever the user
    and the scheduler do (hotkeys, mouse clicks, a coordinate capture, a
    change of action or of timing, a button selection, a rebind, a
    custom-key selection, the window closing, slices of the loop threads),
    the configuration holds the target coordinate, the action type, the
    two durations and the custom key's name exactly as the application
    has them in memory. *)
Theorem settings_stay_stored
    (f : ConfigManager.file_state) (a : app) (ins : list PyQt.input)
    (fs : list (option string)) :
  Startup.start f = Some a ->
  settings_stored (self (PyQt.run ins (PyQt.init a fs))).
Proof.
  intros Hi. destruct (start_settings_stored f a Hi) as (Hs & _).
  apply run_keeps. now apply init_stored.
Qed.

Lemma settings_stay_stored_witness :
  settings_stored
    (self (PyQt.run [PyQt.CaptureRequested; PyQt.MouseClicked 134 902 Button_left true;
                     PyQt.TimingChanged 250 700; PyQt.KeyPressed (Key "f1"); PyQt.Run 0]
             (PyQt.init fresh_app []))).
Proof.
  apply (settings_stay_stored ConfigManager.Absent fresh_app). vm_compute. reflexivity.
Defined.

(** X20: the settings of a PyQt session come back at the next start: an
    application started on the configuration the session left has the
    session's target coordinate, action type, click delay and hold
    duration. *)
Theorem settings_survive_restart
    (f : ConfigManager.file_state) (a : app) (ins : list PyQt.input)
    (fs : list (option string)) :
  Startup.start f = Some a ->
  let a1 := self (PyQt.run ins (PyQt.init a fs)) in
  exists a2,
    Startup.start (ConfigManager.Stored (config a1)) = Some a2 /\
    saved_x a2 = saved_x a1 /\ saved_y a2 = saved_y a1 /\
    action_type a2 = action_type a1 /\
    click_delay_ms a2 = click_delay_ms a1 /\
    hold_duration_ms a2 = hold_duration_ms a1.
Proof.
  intros Hi a1. destruct (start_settings_stored f a Hi) as (Hs & _).
  destruct (restart_restores a1) as (a2 & E & H1 & H2 & H3 & H4 & H5 & _).
  - apply run_keeps. now apply init_stored.
  - exists a2. auto 7.
Qed.

Lemma settings_survive_restart_witness :
  let a1 :=
    self (PyQt.run [PyQt.CaptureRequested; PyQt.MouseClicked 134 902 Button_left true;
                    PyQt.ActionChanged 1; PyQt.TimingChanged 250 700]
            (PyQt.init fresh_app [])) in
  exists a2,
    Startup.start (ConfigManager.Stored (config a1)) = Some a2 /\
    saved_x a2 = saved_x a1 /\ saved_y a2 = saved_y a1 /\
    action_type a2 = action_type a1 /\
    click_delay_ms a2 = click_delay_ms a1 /\
    hold_duration_ms a2 = hold_duration_ms a1.
Proof.
  apply (settings_survive_restart ConfigManager.Absent fresh_app). vm_compute. reflexivity.
Defined.

(** X21: the custom key of the PyQt version does not survive a restart.
    The key selected in the dialog is in memory, its name is stored, the
    key itself never is: started on the configuration the session left,
    the application shows the name of the key and has no custom key. *)
Theorem custom_key_lost_on_restart
    (f : ConfigManager.file_state) (a : app) (ins : list PyQt.input)
    (fs : list (option string)) (key : pyval) :
  Startup.start f = Some a ->
  custom_key a = None ->
  let a1 := self (PyQt.run (ins ++ [PyQt.CustomKeySelected key]) (PyQt.init a fs)) in
  custom_key a1 = Some key /\
  exists a2,
    Startup.start (ConfigManager.Stored (config a1)) = Some a2 /\
    custom_key a2 = None /\
    custom_key_name a2 = custom_key_name a1.
Proof.
  intros Hi Hk a1. destruct (start_settings_stored f a Hi) as (Hs & _).
  split.
  - unfold a1. rewrite run_app. simpl. apply custom_key_selected.
  - destruct (run_keeps (ins ++ [PyQt.CustomKeySelected key]) (PyQt.init a fs))
      as [Hs1 Hc1]; [now apply init_stored|].
    destruct (restart_restores a1 Hs1) as (a2 & E & _ & _ & _ & _ & _ & Hn & _ & Hc).
    exists a2. split; [exact E|]. split; [|exact Hn].
    rewrite Hc. fold a1 in Hc1. rewrite Hc1. simpl.
    pose proof (start_custom_key f a Hi Hk) as Hne.
    destruct (config a !! "custom_key") as [[]|]; try reflexivity.
    now destruct (Hne s).
Qed.

Lemma custom_key_lost_on_restart_witness :
  let a1 := self (PyQt.run ([PyQt.ButtonSelected 2] ++ [PyQt.CustomKeySelected (Key "space")])
                    (PyQt.init fresh_app [])) in
  custom_key a1 = Some (Key "space") /\
  exists a2,
    Startup.start (ConfigManager.Stored (config a1)) = Some a2 /\
    custom_key a2 = None /\
    custom_key_name a2 = custom_key_name a1.
Proof.
  apply (custom_key_lost_on_restart ConfigManager.Absent fresh_app).
  - vm_compute. reflexivity.
  - reflexivity.
Defined.

(** X22: closing the PyQt window stores the left button, whatever button
    is selected: the application started next has the left button as its
    button type and its radio button checked. *)
Theorem close_stores_left_button
    (f : ConfigManager.file_state) (a : app) (ins : list PyQt.input)
    (fs : list (option string)) :
  Startup.start f = Some a ->
  let a1 := self (PyQt.run (ins ++ [PyQt.WindowClosed]) (PyQt.init a fs)) in
  exists a2,
    Startup.start (ConfigManager.Stored (config a1)) = Some a2 /\
    button_type a2 = "esquerdo" /\ checkedId a2 = 0%Z.
Proof.
  intros Hi a1. destruct (start_settings_stored f a Hi) as (Hs & _).
  destruct (run_keeps (ins ++ [PyQt.WindowClosed]) (PyQt.init a fs))
    as [Hs1 _]; [now apply init_stored|].
  destruct (restart_restores a1 Hs1) as (a2 & E & _ & _ & _ & _ & _ & _ & Hb & _).
  exists a2. split; [exact E|].
  assert (Eb : config a1 !! "button_type" = Some (JStr "esquerdo")).
  { unfold a1. rewrite run_app. simpl. apply close_event_button. }
  rewrite lookup_union, Eb in Hb. simpl in Hb. injection Hb as Hb.
  split; [exact Hb|].
  unfold Startup.start, Startup.__init__ in E.
  repeat match type of E with
         | context [mbind _ ?o] => destruct o; cbn [mbind option_bind] in E; [|discriminate E]
         end.
  injection E as <-. simpl in Hb. simpl. now rewrite Hb.
Qed.

Lemma close_stores_left_button_witness :
  let a1 := self (PyQt.run ([PyQt.ButtonSelected 1; PyQt.KeyPressed (Key "f1"); PyQt.Run 0]
                             ++ [PyQt.WindowClosed])
                    (PyQt.init fresh_app [])) in
  exists a2,
    Startup.start (ConfigManager.Stored (config a1)) = Some a2 /\
    button_type a2 = "esquerdo" /\ checkedId a2 = 0%Z.
Proof.
  apply (close_stores_left_button ConfigManager.Absent fresh_app). vm_compute. reflexivity.
Defined.

(** ** The resets and the custom key of MacroV2.0.py *)

Section TkSettingsFacts.
Import TkV2Settings.

Lemma default_config_keys (k : string) :
  is_Some (default_config !! k) ->
  k ∈ ["theme"; "button_type"; "saved_x"; "saved_y"; "key_start"; "key_pause";
       "key_exit"; "click_delay_ms"; "action_type"; "hold_duration_ms";
       "custom_key_name"].
Proof.
  intros [v Hv]. unfold default_config in Hv.
  apply elem_of_list_to_map_2 in Hv.
  apply (list_elem_of_fmap_2 fst) in Hv. exact Hv.
Qed.

Lemma tk_reset_all_wp (m : machine) :
  wp (_reset_all true)
     (fun r m' =>
        r = Ok tt /\
        exists c evs,
          self m' =
            set_config c
              (set_custom_key_name "Nenhuma" (set_custom_key None
                 (set_button_type "esquerdo" (set_action_type "click"
                    (set_hold_duration_ms 500 (set_click_delay_ms 100
                       (set_key_exit (Key "f3") (set_key_pause (Key "f2")
                          (set_key_start (Key "f1") (self m)))))))))) /\
          (forall k, is_Some (default_config !! k) -> k <> "saved_x" -> k <> "saved_y" ->
                     c !! k = default_config !! k) /\
          c !! "saved_x" = config (self m) !! "saved_x" /\
          c !! "saved_y" = config (self m) !! "saved_y" /\
          c !! "custom_key" = Some JNull /\
          out m' = out m ++ evs /\ faults m' = faults m /\ threads m' = threads m) m.
Proof.
  unfold _reset_all. wp_run_tk. split; [reflexivity|].
  eexists _, _. split; [cbn; reflexivity|].
  split; [|split; [|split; [|split; [|split; [|split]]]]].
  - intros k Hk Hx Hy. apply default_config_keys in Hk.
    repeat (apply elem_of_cons in Hk as [->|Hk]); try congruence;
      try (now apply elem_of_nil in Hk);
      cbn; cfg_lookup; reflexivity.
  - cbn; cfg_lookup; reflexivity.
  - cbn; cfg_lookup; reflexivity.
  - cbn; cfg_lookup; reflexivity.
  - rewrite <- ?app_assoc. reflexivity.
  - reflexivity.
  - reflexivity.
Qed.

Lemma tk_custom_key_wp (key : pyval) (m : machine) :
  wp (on_press_custom_key key)
     (fun _ m' =>
        exists n,
          PyQt.pressed_key_name key = Ok n /\
          self m' =
            set_config
              (<["custom_key_stored" := JStr (PyStr.lower n)]>
                 (<["custom_key_name" := JStr (PyStr.upper n)]> (config (self m))))
              (set_custom_key_name (PyStr.upper n)
                 (set_custom_key (Some key) (self m)))) m.
Proof.
  unfold on_press_custom_key. wp_run';
    try (now apply pressed_key_name_never_raises in Heqr).
  eexists. split; reflexivity.
Qed.

End TkSettingsFacts.

(** X23: "Restaurar Padrão" of the Tk version, once confirmed, never
    raises and puts the three hotkeys, the action, the button, the two
    durations and the custom key back to what a first start gives, in
    memory and in every default entry of the configuration, except the
    target coordinate: that one stays as it was, in memory and in the
    configuration.  Neither engine flag and nothing of the thread table
    is written.  Answering no changes nothing. *)
Theorem tk_reset_all_keeps_coordinate (m : machine) :
  let r := TkV2Settings._reset_all true m in
  let a' := self (snd r) in
  fst r = Ok tt /\
  (key_start a', key_pause a', key_exit a') =
    (key_start fresh_app, key_pause fresh_app, key_exit fresh_app) /\
  (action_type a', button_type a', click_delay_ms a', hold_duration_ms a') =
    (action_type fresh_app, button_type fresh_app, click_delay_ms fresh_app,
     hold_duration_ms fresh_app) /\
  (custom_key a', custom_key_name a') = (custom_key fresh_app, custom_key_name fresh_app) /\
  (forall k, is_Some (default_config !! k) -> k <> "saved_x" -> k <> "saved_y" ->
             config a' !! k = default_config !! k) /\
  (saved_x a', saved_y a') = (saved_x (self m), saved_y (self m)) /\
  (config a' !! "saved_x", config a' !! "saved_y") =
    (config (self m) !! "saved_x", config (self m) !! "saved_y") /\
  (is_running a', is_paused a') = (is_running (self m), is_paused (self m)) /\
  threads (snd r) = threads m /\
  TkV2Settings._reset_all false m = (Ok tt, m).
Proof.
  intros r a'.
  destruct (wp_elim _ _ _ (tk_reset_all_wp m))
    as (r0 & m' & E & -> & c & evs & Ha & Hd & Hx & Hy & _ & _ & _ & Ht).
  unfold a', r. rewrite E. cbn [fst snd]. rewrite Ha. cbn.
  rewrite Hx, Hy. repeat split; auto.
Qed.


(** X24: in the Tk version the selection of a custom key writes the key
    under an entry no start reads.  After the selection the key is in
    memory and its name in lower case is stored as [custom_key_stored];
    the application started on that configuration shows the name of the
    key and has no custom key. *)
Theorem tk_custom_key_stored_but_not_restored (key : pyval) (m : machine) :
  settings_stored (self m) ->
  ConfigManager.get (config (self m)) "custom_key" JNull = JNull ->
  let a1 := self (snd (TkV2Settings.on_press_custom_key key m)) in
  custom_key a1 = Some key /\
  (exists n, PyQt.pressed_key_name key = Ok n /\
             custom_key_name a1 = PyStr.upper n /\
             config a1 !! "custom_key_stored" = Some (JStr (PyStr.lower n))) /\
  exists a2,
    Startup.start (ConfigManager.Stored (config a1)) = Some a2 /\
    custom_key a2 = None /\
    custom_key_name a2 = custom_key_name a1.
Proof.
  intros Hs Hk a1.
  destruct (wp_elim _ _ _ (tk_custom_key_wp key m)) as (r & m' & E & n & Hn & Ha).
  unfold a1. rewrite E. cbn [snd]. rewrite Ha. clear E Ha a1.
  split; [reflexivity|]. split.
  - exists n. split; [exact Hn|]. split; [reflexivity|]. cbn. apply lookup_insert_eq.
  - match goal with |- context [Startup.start (ConfigManager.Stored (config ?a))] =>
      destruct (restart_restores a) as (a2 & E2 & _ & _ & _ & _ & _ & Hname & _ & Hc)
    end.
    + destruct Hs as (H1 & H2 & H3 & H4 & H5 & H6 & H7 & H8).
      unfold settings_stored. cbn. cfg_lookup. repeat split; auto.
    + exists a2. split; [exact E2|]. split; [|exact Hname].
      rewrite Hc. cbn. cfg_lookup. unfold ConfigManager.get in Hk.
      destruct (config (self m) !! "custom_key") as [[]|]; simpl in Hk;
        try reflexivity; discriminate Hk.
Qed.

Lemma tk_custom_key_stored_but_not_restored_witness :
  let a1 := self (snd (TkV2Settings.on_press_custom_key (Key "space")
                         (mkMachine fresh_app [] [] []))) in
  custom_key a1 = Some (Key "space") /\
  (exists n, PyQt.pressed_key_name (Key "space") = Ok n /\
             custom_key_name a1 = PyStr.upper n /\
             config a1 !! "custom_key_stored" = Some (JStr (PyStr.lower n))) /\
  exists a2,
    Startup.start (ConfigManager.Stored (config a1)) = Some a2 /\
    custom_key a2 = None /\
    custom_key_name a2 = custom_key_name a1.
Proof.
  apply (tk_custom_key_stored_but_not_restored (Key "space")
           (mkMachine fresh_app [] [] [])).
  - vm_compute. repeat split; reflexivity.
  - reflexivity.
Defined.

(** ** The coordinate capture of MacroV1.0.py *)

Section V1CaptureFacts.
Import V1Capture.

Ltac flag_absurd :=
  match goal with
  | Hb : andb _ _ = _ |- _ =>
      rewrite ?andb_false_r in Hb; try discriminate Hb;
      match goal with H : capture_mode _ = _ |- _ => rewrite H in Hb; discriminate Hb end
  end.

Lemma v1_click_idle (x y : Z) (b : button) (pressed : bool) (m : machine) :
  capture_mode (self m) = false -> _on_mouse_click x y b pressed m = (Ok tt, m).
Proof.
  intros H. apply wp_eq. unfold _on_mouse_click. wp_run'; first [flag_absurd | auto].
Qed.

Lemma v1_mouse_events_idle (evs : list (Z * Z * button * bool)) (m : machine) :
  capture_mode (self m) = false -> mouse_events evs m = (Ok tt, m).
Proof.
  intros H. induction evs as [|[[[x y] b] p] evs IH]; [reflexivity|].
  cbn [mouse_events]. unfold Eff.bind at 1.
  rewrite v1_click_idle by exact H. exact IH.
Qed.

Lemma v1_click_captures (x y : Z) (b : button) (m : machine) :
  capture_mode (self m) = true ->
  _on_mouse_click x y b true m =
    (Ok tt,
     mkMachine
       (set_capture_mode false (set_saved_y (Some y) (set_saved_x (Some x) (self m))))
       (out m ++ [CoordinatesUpdated x y; CaptureButton true "Capturar Coordenada";
                  Status "Coordenada capturada!" "green"])
       (faults m) (threads m)).
Proof.
  intros H. apply wp_eq. unfold _on_mouse_click. wp_run'; try flag_absurd.
  split; [reflexivity|]. rewrite <- !app_assoc. reflexivity.
Qed.

Lemma v1_release_ignored (x y : Z) (b : button) (m : machine) :
  _on_mouse_click x y b false m = (Ok tt, m).
Proof.
  apply wp_eq. unfold _on_mouse_click. wp_run'; first [flag_absurd | auto].
Qed.

Lemma v1_mouse_events_armed (evs : list (Z * Z * button * bool)) (m : machine) :
  capture_mode (self m) = true ->
  fst (mouse_events evs m) = Ok tt /\
  match first_press evs with
  | Some (x, y) =>
      snd (mouse_events evs m) =
        mkMachine
          (set_capture_mode false (set_saved_y (Some y) (set_saved_x (Some x) (self m))))
          (out m ++ [CoordinatesUpdated x y; CaptureButton true "Capturar Coordenada";
                     Status "Coordenada capturada!" "green"])
          (faults m) (threads m)
  | None => snd (mouse_events evs m) = m
  end.
Proof.
  revert m. induction evs as [|[[[x y] b] [|]] evs IH]; intros m H.
  - split; reflexivity.
  - unfold first_press. rewrite filter_cons_True by reflexivity.
    cbn [mouse_events]. unfold Eff.bind.
    rewrite v1_click_captures by exact H. rewrite v1_mouse_events_idle by reflexivity.
    split; reflexivity.
  - unfold first_press. rewrite filter_cons_False by discriminate.
    cbn [mouse_events]. unfold Eff.bind.
    rewrite v1_release_ignored. now apply IH.
Qed.

End V1CaptureFacts.

(** X25: the coordinate capture of version 1.0 takes the first press and
    nothing else.  Once [_start_capture_mode] has armed it, of any
    sequence of mouse events the first press sets the target coordinate
    and disarms the capture; the releases before it and everything after
    it change nothing, and with no press the capture stays armed.  No
    callback raises, and nothing but the coordinate and the capture flag
    is written. *)
Theorem v1_capture_takes_first_press
    (evs : list (Z * Z * button * bool)) (m : machine) :
  let m0 := snd (V1Capture._start_capture_mode m) in
  let r := V1Capture.mouse_events evs m0 in
  fst r = Ok tt /\
  capture_mode (self m0) = true /\
  match first_press evs with
  | Some (x, y) =>
      snd r =
        mkMachine
          (set_capture_mode false (set_saved_y (Some y) (set_saved_x (Some x) (self m))))
          (out m0 ++ [CoordinatesUpdated x y; CaptureButton true "Capturar Coordenada";
                      Status "Coordenada capturada!" "green"])
          (faults m) (threads m)
  | None => snd r = m0
  end.
Proof.
  intros m0 r.
  destruct (v1_mouse_events_armed evs m0) as [H1 H2]; [reflexivity|].
  split; [exact H1|]. split; [reflexivity|].
  unfold r. destruct (first_press evs) as [[x y]|]; rewrite H2; reflexivity.
Qed.

(** X26: closing the Tk window stores what is selected, as long as the
    two duration fields hold numbers.  With the target coordinate in the
    configuration as it is in memory and both reads answering, [d] and
    [h], [_on_closing] returns, the engine is stopped, and the
    application started on the configuration it leaves has the button,
    the action, the custom key's name and the coordinate of the session
    that was closed, and [d] and [h] as its durations.  When a read
    raises, a field holding a text that is no number, the exception
    leaves [_on_closing]: the engine is stopped, and what was stored is
    what comes before the read, the button and the action, and the click
    delay when it is the hold duration that cannot be read. *)
Theorem tk_closing_stores_selection (m : machine) (d h : Z) (e : exn) (hold : res Z) :
  config (self m) !! "saved_x" = Some (jint_opt (saved_x (self m))) ->
  config (self m) !! "saved_y" = Some (jint_opt (saved_y (self m))) ->
  key_entry (config (self m) !! "custom_key") = true ->
  (let r := TkV2Settings._on_closing (Ok d) (Ok h) m in
   let a1 := self (snd r) in
   fst r = Ok tt /\
   is_running a1 = false /\
   exists a2,
     Startup.start (ConfigManager.Stored (config a1)) = Some a2 /\
     button_type a2 = button_type (self m) /\
     action_type a2 = action_type (self m) /\
     click_delay_ms a2 = d /\
     hold_duration_ms a2 = h /\
     custom_key_name a2 = custom_key_name (self m) /\
     saved_x a2 = saved_x (self m) /\ saved_y a2 = saved_y (self m)) /\
  (let r := TkV2Settings._on_closing (Raise e) hold m in
   fst r = Raise e /\
   self (snd r) =
     set_config
       (<["action_type" := JStr (action_type (self m))]>
          (<["button_type" := JStr (button_type (self m))]> (config (self m))))
       (set_is_running false (self m))) /\
  (let r := TkV2Settings._on_closing (Ok d) (Raise e) m in
   fst r = Raise e /\
   self (snd r) =
     set_config
       (<["click_delay_ms" := JInt d]>
          (<["action_type" := JStr (action_type (self m))]>
             (<["button_type" := JStr (button_type (self m))]> (config (self m)))))
       (set_is_running false (self m))).
Proof.
  intros Hx Hy Hk. split; [|split].
  - intros r a1.
    assert (W : wp (TkV2Settings._on_closing (Ok d) (Ok h))
                  (fun r' m' =>
                     r' = Ok tt /\
                     self m' =
                       set_config
                         (<["custom_key_name" := JStr (custom_key_name (self m))]>
                            (<["hold_duration_ms" := JInt h]>
                               (<["click_delay_ms" := JInt d]>
                                  (<["action_type" := JStr (action_type (self m))]>
                                     (<["button_type" := JStr (button_type (self m))]>
                                        (config (self m)))))))
                         (set_is_running false (self m))) m).
    { unfold TkV2Settings._on_closing. wp_run_tk; split; reflexivity. }
    destruct (wp_elim _ _ _ W) as (r' & m' & E & -> & Ha).
    unfold a1, r. rewrite E. cbn [fst snd]. rewrite Ha. clear W E Ha r a1.
    split; [reflexivity|]. split; [reflexivity|].
    match goal with |- context [Startup.start (ConfigManager.Stored (config ?a))] =>
      destruct (restart_restores (set_hold_duration_ms h (set_click_delay_ms d a)))
        as (a2 & E2 & H1 & H2 & H3 & H4 & H5 & H6 & Hb & _)
    end.
    + unfold settings_stored. cbn. cfg_lookup. repeat split; auto.
    + exists a2. split; [exact E2|].
      rewrite lookup_union in Hb. cbn in Hb. revert Hb. cfg_lookup. cbn.
      intros [= Hb]. repeat split; assumption.
  - cbv zeta.
    change (wp (TkV2Settings._on_closing (Raise e) hold)
              (fun r' m' =>
                 r' = Raise e /\
                 self m' =
                   set_config
                     (<["action_type" := JStr (action_type (self m))]>
                        (<["button_type" := JStr (button_type (self m))]> (config (self m))))
                     (set_is_running false (self m))) m).
    unfold TkV2Settings._on_closing. wp_run_tk; split; reflexivity.
  - cbv zeta.
    change (wp (TkV2Settings._on_closing (Ok d) (Raise e))
              (fun r' m' =>
                 r' = Raise e /\
                 self m' =
                   set_config
                     (<["click_delay_ms" := JInt d]>
                        (<["action_type" := JStr (action_type (self m))]>
                           (<["button_type" := JStr (button_type (self m))]>
                              (config (self m)))))
                     (set_is_running false (self m))) m).
    unfold TkV2Settings._on_closing. wp_run_tk; split; reflexivity.
Qed.

Lemma tk_closing_stores_selection_witness :
  let m := mkMachine (set_button_type "direito" example_app) [] [] [] in
  let e := OtherError "expected floating-point number but got abc" in
  (let r := TkV2Settings._on_closing (Ok 250%Z) (Ok 700%Z) m in
   let a1 := self (snd r) in
   fst r = Ok tt /\
   is_running a1 = false /\
   exists a2,
     Startup.start (ConfigManager.Stored (config a1)) = Some a2 /\
     button_type a2 = button_type (self m) /\
     action_type a2 = action_type (self m) /\
     click_delay_ms a2 = 250%Z /\
     hold_duration_ms a2 = 700%Z /\
     custom_key_name a2 = custom_key_name (self m) /\
     saved_x a2 = saved_x (self m) /\ saved_y a2 = saved_y (self m)) /\
  (let r := TkV2Settings._on_closing (Raise e) (Ok 700%Z) m in
   fst r = Raise e /\
   self (snd r) =
     set_config
       (<["action_type" := JStr (action_type (self m))]>
          (<["button_type" := JStr (button_type (self m))]> (config (self m))))
       (set_is_running false (self m))) /\
  (let r := TkV2Settings._on_closing (Ok 250%Z) (Raise e) m in
   fst r = Raise e /\
   self (snd r) =
     set_config
       (<["click_delay_ms" := JInt 250]>
          (<["action_type" := JStr (action_type (self m))]>
             (<["button_type" := JStr (button_type (self m))]> (config (self m)))))
       (set_is_running false (self m))).
Proof.
  intros m e.
  apply (tk_closing_stores_selection m 250 700 e (Ok 700%Z)); vm_compute; reflexivity.
Defined.
